(** * ModifiedThroughput: the Aeron throughput sample with two stream IDs

    A shallow embedding of
    [aeron-samples/src/main/cpp/ModifiedThroughput.cpp]: the settings
    struct, [parseCmdLine], the part of [main] that runs before the threads
    are started, and the two loops (the claim-and-commit send loop of the
    main thread, the poll loop of the poll thread) as a step machine that
    shares the atomic [running] flag with the SIGINT handler. *)

From Stdlib Require Import ZArith List String Ascii Bool Lia.
Import ListNotations.
Local Open Scope string_scope.
Local Open Scope list_scope.
Local Open Scope Z_scope.

(** ** Fixed-width integers *)

Module FixedWidth.

Definition INT32_MAX : Z := 2147483647.
Definition INT32_MIN : Z := -2147483648.
Definition INT64_MAX : Z := 9223372036854775807.
Definition INT64_MIN : Z := -9223372036854775808.

(** Two's-complement value of [z] in a signed [w]-bit integer. *)
Definition wrap (w : Z) (z : Z) : Z :=
  (z + 2 ^ (w - 1)) mod 2 ^ w - 2 ^ (w - 1).

(** Conversion to [int] / [std::int32_t] and to [std::int64_t]. *)
Definition toInt32 : Z -> Z := wrap 32.
Definition toInt64 : Z -> Z := wrap 64.

Definition isInt32 (z : Z) : Prop := INT32_MIN <= z <= INT32_MAX.
Definition isInt64 (z : Z) : Prop := INT64_MIN <= z <= INT64_MAX.

(** [sizeof(std::int64_t)] *)
Definition sizeofInt64 : Z := 8.

End FixedWidth.
Import FixedWidth.

(** ** Exceptions, outcomes and observable events *)

(** The three [catch] clauses of [main], most specific first. *)
Inductive Exception : Type :=
| CommandOptionException (what : string)
| SourcedException (what where_ : string)
| StdException (what : string).

Inductive Outcome (A : Type) : Type :=
| Returns (a : A)
| Throws (e : Exception)
| Exits (status : Z).
Arguments Returns {A} a.
Arguments Throws {A} e.
Arguments Exits {A} status.

Inductive Stream : Type := Cout | Cerr.

(** What is streamed with [operator<<]. *)
Inductive Item : Type :=
| Str (s : string)
| Int (z : Z)
| WithCommas (z : Z)
| Endl.

(** A [double] expression, kept symbolic: the conversion of a 64-bit
    integer and the division of two doubles. *)
Inductive Double : Type :=
| OfInt64 (z : Z)
| Div (a b : Double).

(** [BufferClaim] after a successful [tryClaim]: where the message body
    starts in the claimed buffer and how many bytes of it were claimed. *)
Record BufferClaim : Type := mkClaim { offset : Z; length : Z }.

Inductive Event : Type :=
| Print (to : Stream) (items : list Item)
| DisplayOptionsHelp (to : Stream) (text : string)
| PrintRatio (ratio : Double)
| AeronDir (dir : string)
| AeronConnect
| InstallSigIntHandler
| AddSubscription (channel : string) (streamId : Z)
| AddPublication (channel : string) (streamId : Z)
| Yield
| StartRateReporterThread
| StartPollThread
| SetPrintingActive (b : bool)
| RateReporterReset
| RateReporterReport
| RateReporterHalt
| ForTest (i : Z) (passed : bool)
| OfferIdleReset
| TryClaim (len : Z) (result : Z)
| BackPressure
| OfferIdle
| PutInt64 (claim : BufferClaim) (index : Z) (value : Z)
| Commit (claim : BufferClaim)
| SleepMillis (ms : Z)
| PollTest (passed : bool)
| Poll (fragmentLimit : Z) (fragments : Z)
| PollIdle (workCount : Z)
| SleepMicros (us : Z)
| SigInt
| ContinuationBarrier (question : string) (answer : bool)
| JoinPollThread
| JoinRateReporterThread.

(** A sequential piece of the program: what it printed, in order, and
    how it ended. *)
Definition Prog (A : Type) : Type := (list Event * Outcome A)%type.

Definition ret {A : Type} (a : A) : Prog A := ([], Returns a).

Definition bind {A B : Type} (m : Prog A) (k : A -> Prog B) : Prog B :=
  match m with
  | (out, Returns a) => let (out', r) := k a in (out ++ out', r)
  | (out, Throws e) => (out, Throws e)
  | (out, Exits c) => (out, Exits c)
  end.

Definition call {A : Type} (o : Outcome A) : Prog A := ([], o).
Definition emit (e : Event) : Prog unit := ([e], Returns tt).
Definition exit {A : Type} (status : Z) : Prog A := ([], Exits status).

Notation "x <- m ;; k" := (bind m (fun x => k))
  (at level 61, m at next level, right associativity).
Notation "m ;;; k" := (bind m (fun _ => k))
  (at level 61, right associativity).

(** ** The command-option parser *)

(** The arguments of the [CommandOption] constructor. *)
Record OptionSpec : Type := mkOption
  { optionChar : ascii; minParams : nat; maxParams : nat; helpText : string }.

(** Modelled from the spec: [util/CommandOptionParser.h] is not among the
    sources, so the operations [parseCmdLine] and [main] call on it are an
    interface.  Its two laws are the spec's "basic range validation already
    enforced by the option parser": a ranged getter returns either the
    default it was handed or a value inside the range it was handed. *)
Class CommandOptionParserApi : Type := {
  CommandOptionParser : Type;
  CommandOption : Type;
  newParser : CommandOptionParser;
  addOption : CommandOptionParser -> OptionSpec -> CommandOptionParser;
  parse : CommandOptionParser -> list string -> Outcome CommandOptionParser;
  getOption : CommandOptionParser -> ascii -> Outcome CommandOption;
  optionsHelp : CommandOptionParser -> string;
  isPresent : CommandOption -> bool;
  getParam : CommandOption -> nat -> string -> Outcome string;
  getParamAsInt : CommandOption -> nat -> Z -> Z -> Z -> Outcome Z;
  getParamAsLong : CommandOption -> nat -> Z -> Z -> Z -> Outcome Z;
  getParamAsInt_range : forall o index lo hi dflt v,
    getParamAsInt o index lo hi dflt = Returns v -> v = dflt \/ lo <= v <= hi;
  getParamAsLong_range : forall o index lo hi dflt v,
    getParamAsLong o index lo hi dflt = Returns v -> v = dflt \/ lo <= v <= hi
}.

(** ** Settings *)

Definition optHelp : ascii := "h".
Definition optPrefix : ascii := "p".
Definition optPChannel : ascii := "C".
Definition optSChannel : ascii := "c".
Definition pOptStreamId : ascii := "s".
Definition sOptStreamId : ascii := "s".
Definition optMessages : ascii := "m".
Definition optLinger : ascii := "l".
Definition optLength : ascii := "L".
Definition optProgress : ascii := "P".
Definition optFrags : ascii := "f".
Definition optSubscriptionDelay : ascii := "d".

(** The constants of [samples::configuration] ([Configuration.h] is not
    among the sources): they are parameters of the model. *)
Record Configuration : Type := mkConfiguration {
  DEFAULT_CHANNEL : string;
  DEFAULT_STREAM_ID : Z;
  DEFAULT_NUMBER_OF_MESSAGES : Z;
  DEFAULT_MESSAGE_LENGTH : Z;
  DEFAULT_LINGER_TIMEOUT_MS : Z;
  DEFAULT_FRAGMENT_COUNT_LIMIT : Z;
  DEFAULT_PUBLICATION_RATE_PROGRESS : bool
}.

Record Settings : Type := mkSettings {
  dirPrefix : string;
  pChannel : string;
  sChannel : string;
  pStreamId : Z;           (* std::int32_t *)
  sStreamId : Z;           (* std::int32_t *)
  numberOfMessages : Z;    (* std::int64_t *)
  messageLength : Z;       (* std::int64_t *)
  lingerTimeoutMs : Z;     (* int *)
  fragmentCountLimit : Z;  (* int *)
  progress : bool;
  subscriptionDelay : Z    (* std::int32_t *)
}.

(** [Settings s;] with the default member initialisers, each converted to
    the type of its field. *)
Definition defaultSettings (cfg : Configuration) : Settings :=
  {| dirPrefix := "";
     pChannel := DEFAULT_CHANNEL cfg;
     sChannel := DEFAULT_CHANNEL cfg;
     pStreamId := toInt32 (DEFAULT_STREAM_ID cfg);
     sStreamId := toInt32 (DEFAULT_STREAM_ID cfg);
     numberOfMessages := toInt64 (DEFAULT_NUMBER_OF_MESSAGES cfg);
     messageLength := toInt64 (DEFAULT_MESSAGE_LENGTH cfg);
     lingerTimeoutMs := toInt32 (DEFAULT_LINGER_TIMEOUT_MS cfg);
     fragmentCountLimit := toInt32 (DEFAULT_FRAGMENT_COUNT_LIMIT cfg);
     progress := DEFAULT_PUBLICATION_RATE_PROGRESS cfg;
     subscriptionDelay := 0 |}.

Definition set_dirPrefix (v : string) (s : Settings) : Settings :=
  mkSettings v (pChannel s) (sChannel s) (pStreamId s) (sStreamId s)
    (numberOfMessages s) (messageLength s) (lingerTimeoutMs s)
    (fragmentCountLimit s) (progress s) (subscriptionDelay s).
Definition set_pChannel (v : string) (s : Settings) : Settings :=
  mkSettings (dirPrefix s) v (sChannel s) (pStreamId s) (sStreamId s)
    (numberOfMessages s) (messageLength s) (lingerTimeoutMs s)
    (fragmentCountLimit s) (progress s) (subscriptionDelay s).
Definition set_sChannel (v : string) (s : Settings) : Settings :=
  mkSettings (dirPrefix s) (pChannel s) v (pStreamId s) (sStreamId s)
    (numberOfMessages s) (messageLength s) (lingerTimeoutMs s)
    (fragmentCountLimit s) (progress s) (subscriptionDelay s).
Definition set_pStreamId (v : Z) (s : Settings) : Settings :=
  mkSettings (dirPrefix s) (pChannel s) (sChannel s) v (sStreamId s)
    (numberOfMessages s) (messageLength s) (lingerTimeoutMs s)
    (fragmentCountLimit s) (progress s) (subscriptionDelay s).
Definition set_sStreamId (v : Z) (s : Settings) : Settings :=
  mkSettings (dirPrefix s) (pChannel s) (sChannel s) (pStreamId s) v
    (numberOfMessages s) (messageLength s) (lingerTimeoutMs s)
    (fragmentCountLimit s) (progress s) (subscriptionDelay s).
Definition set_numberOfMessages (v : Z) (s : Settings) : Settings :=
  mkSettings (dirPrefix s) (pChannel s) (sChannel s) (pStreamId s)
    (sStreamId s) v (messageLength s) (lingerTimeoutMs s)
    (fragmentCountLimit s) (progress s) (subscriptionDelay s).
Definition set_messageLength (v : Z) (s : Settings) : Settings :=
  mkSettings (dirPrefix s) (pChannel s) (sChannel s) (pStreamId s)
    (sStreamId s) (numberOfMessages s) v (lingerTimeoutMs s)
    (fragmentCountLimit s) (progress s) (subscriptionDelay s).
Definition set_lingerTimeoutMs (v : Z) (s : Settings) : Settings :=
  mkSettings (dirPrefix s) (pChannel s) (sChannel s) (pStreamId s)
    (sStreamId s) (numberOfMessages s) (messageLength s) v
    (fragmentCountLimit s) (progress s) (subscriptionDelay s).
Definition set_fragmentCountLimit (v : Z) (s : Settings) : Settings :=
  mkSettings (dirPrefix s) (pChannel s) (sChannel s) (pStreamId s)
    (sStreamId s) (numberOfMessages s) (messageLength s) (lingerTimeoutMs s)
    v (progress s) (subscriptionDelay s).
Definition set_progress (v : bool) (s : Settings) : Settings :=
  mkSettings (dirPrefix s) (pChannel s) (sChannel s) (pStreamId s)
    (sStreamId s) (numberOfMessages s) (messageLength s) (lingerTimeoutMs s)
    (fragmentCountLimit s) v (subscriptionDelay s).
Definition set_subscriptionDelay (v : Z) (s : Settings) : Settings :=
  mkSettings (dirPrefix s) (pChannel s) (sChannel s) (pStreamId s)
    (sStreamId s) (numberOfMessages s) (messageLength s) (lingerTimeoutMs s)
    (fragmentCountLimit s) (progress s) v.

(** ** parseCmdLine *)

Section ParseCmdLine.

Context {api : CommandOptionParserApi}.
Variable cfg : Configuration.

(** [cp.getOption(c).getParam(0, dflt)] and its ranged siblings. *)
Definition optParam (cp : CommandOptionParser) (c : ascii) (dflt : string)
  : Prog string :=
  o <- call (getOption cp c) ;; call (getParam o 0 dflt).

(** The value [getParamAsInt] returns is an [int]. *)
Definition optParamAsInt (cp : CommandOptionParser) (c : ascii)
    (lo hi dflt : Z) : Prog Z :=
  o <- call (getOption cp c) ;;
  v <- call (getParamAsInt o 0 lo hi dflt) ;;
  ret (toInt32 v).

(** The value [getParamAsLong] returns is a [long long]. *)
Definition optParamAsLong (cp : CommandOptionParser) (c : ascii)
    (lo hi dflt : Z) : Prog Z :=
  o <- call (getOption cp c) ;;
  v <- call (getParamAsLong o 0 lo hi dflt) ;;
  ret (toInt64 v).

Definition optPresent (cp : CommandOptionParser) (c : ascii) : Prog bool :=
  o <- call (getOption cp c) ;; ret (isPresent o).

(** The assignments of lines 78-88, in order.  The ranged getters take
    [int] bounds and an [int] default ([getParamAsLong]: [long long]):
    [sizeof(std::int64_t)] and the 64-bit [s.messageLength] are converted
    to [int] on the way in; an [int] stored in a 64-bit field keeps its
    value. *)
Definition readSettings (cp : CommandOptionParser) : Prog Settings :=
  let s := defaultSettings cfg in
  v <- optParam cp optPrefix (dirPrefix s) ;;
  let s := set_dirPrefix v s in
  v <- optParam cp optPChannel (pChannel s) ;;
  let s := set_pChannel v s in
  v <- optParam cp optSChannel (sChannel s) ;;
  let s := set_sChannel v s in
  v <- optParamAsInt cp pOptStreamId 1 INT32_MAX (pStreamId s) ;;
  let s := set_pStreamId v s in
  v <- optParamAsInt cp sOptStreamId 1 INT32_MAX (sStreamId s) ;;
  let s := set_sStreamId v s in
  v <- optParamAsLong cp optMessages 0 INT64_MAX (numberOfMessages s) ;;
  let s := set_numberOfMessages v s in
  v <- optParamAsInt cp optLength (toInt32 sizeofInt64) INT32_MAX
         (toInt32 (messageLength s)) ;;
  let s := set_messageLength v s in
  v <- optParamAsInt cp optLinger 0 (60 * 60 * 1000) (lingerTimeoutMs s) ;;
  let s := set_lingerTimeoutMs v s in
  v <- optParamAsInt cp optFrags 1 INT32_MAX (fragmentCountLimit s) ;;
  let s := set_fragmentCountLimit v s in
  v <- optPresent cp optProgress ;;
  let s := set_progress v s in
  v <- optParamAsInt cp optSubscriptionDelay 0 INT32_MAX
         (subscriptionDelay s) ;;
  let s := set_subscriptionDelay v s in
  ret s.

Definition parseCmdLine (cp : CommandOptionParser) (argv : list string)
  : Prog Settings :=
  cp <- call (parse cp argv) ;;
  help <- optPresent cp optHelp ;;
  if help then
    emit (DisplayOptionsHelp Cout (optionsHelp cp)) ;;; exit 0
  else
    readSettings cp.

End ParseCmdLine.

(** ** The external library *)

(** What the messaging client, the driver and the terminal answer; none of
    it is decided by this file. *)
Record Environment : Type := mkEnvironment {
  (** [Aeron aeron(context)] returns or throws *)
  connect : Outcome unit;
  (** how often [findSubscription] / [findPublication] answer null *)
  subscriptionSpins : nat;
  publicationSpins : nat;
  (** [publication->maxPayloadLength()] *)
  maxPayloadLength : Z;
  (** what the [k]-th call of [tryClaim] returns, and where the body of
      the claimed message starts when it succeeds *)
  tryClaimResult : nat -> Z;
  claimOffset : nat -> Z;
  (** the fragments the [k]-th [poll] reads *)
  pollFragments : nat -> Z;
  (** the answer to the [k]-th "Execute again?" *)
  executeAgain : nat -> bool
}.

(** ** main, up to the start of the threads *)

Section Main.

Context {api : CommandOptionParserApi}.
Variable cfg : Configuration.
Variable env : Environment.

(** Lines 128-139, in order. *)
Definition options : list OptionSpec :=
  [ mkOption optHelp 0 0 "                Displays help information.";
    mkOption optProgress 0 0
      "                Print rate progress while sending.";
    mkOption optPrefix 1 1 "dir             Prefix directory for aeron driver.";
    mkOption optPChannel 1 1 "pChannel        Publisher Channel.";
    mkOption optSChannel 1 1 "sChannel        Subscriber Channel.";
    mkOption pOptStreamId 1 1 "pPtreamId       Publisher Stream ID.";
    mkOption sOptStreamId 1 1 "sStreamId       Subscriber Stream ID.";
    mkOption optMessages 1 1 "number          Number of Messages.";
    mkOption optLength 1 1 "length          Length of Messages.";
    mkOption optLinger 1 1 "milliseconds    Linger timeout in milliseconds.";
    mkOption optFrags 1 1 "limit           Fragment Count Limit.";
    mkOption optSubscriptionDelay 1 1
      "subDelay        Subscriber Delay in microseconds." ].

Definition registeredParser : CommandOptionParser :=
  fold_left addOption options newParser.

(** [while (!found) { yield(); found = find(id); }] *)
Definition spin (n : nat) : Prog unit := (repeat Yield n, Returns tt).

(** The [try] block from line 146 to line 213.  [Returns settings] is
    control reaching line 215; [return -1] ends the program.  The four
    handlers set on the context (lines 162-186) print when the library
    calls them: that output is the library's and is left out. *)
Definition mainTry (argv : list string) : Prog Settings :=
  settings <- parseCmdLine cfg registeredParser argv ;;
  emit (Print Cout [Str "Subscribing to channel "; Str (sChannel settings);
                    Str " on Stream ID "; Int (sStreamId settings); Endl]) ;;;
  emit (Print Cout [Str "Streaming ";
                    WithCommas (numberOfMessages settings);
                    Str " messages of payload length ";
                    Int (messageLength settings); Str " bytes to ";
                    Str (sChannel settings); Str " on stream ID ";
                    Int (sStreamId settings); Endl]) ;;;
  (if String.eqb (dirPrefix settings) "" then ret tt
   else emit (AeronDir (dirPrefix settings))) ;;;
  emit AeronConnect ;;;
  call (connect env) ;;;
  emit InstallSigIntHandler ;;;
  emit (AddSubscription (sChannel settings) (sStreamId settings)) ;;;
  emit (AddPublication (pChannel settings) (pStreamId settings)) ;;;
  spin (subscriptionSpins env) ;;;
  spin (publicationSpins env) ;;;
  if messageLength settings >? maxPayloadLength env then
    emit (Print Cerr [Str "ERROR - tryClaim limit: messageLength=";
                      Int (messageLength settings);
                      Str " > maxPayloadLength=";
                      Int (maxPayloadLength env);
                      Str ", use publication offer or increase MTU.";
                      Endl]) ;;;
    exit (-1)
  else ret settings.

(** The three handlers of lines 317-332; each ends with [return -1]. *)
Definition handler (e : Exception) : list Event :=
  match e with
  | CommandOptionException what =>
      [ Print Cerr [Str "ERROR: "; Str what; Endl; Endl];
        DisplayOptionsHelp Cerr (optionsHelp registeredParser) ]
  | SourcedException what where_ =>
      [ Print Cerr [Str "FAILED: "; Str what; Str " : "; Str where_; Endl] ]
  | StdException what =>
      [ Print Cerr [Str "FAILED: "; Str what; Str " : "; Endl] ]
  end.

Definition catchAll {A : Type} (m : Prog A) : Prog A :=
  match m with
  | (out, Throws e) => (out ++ handler e, Exits (-1))
  | other => other
  end.

(** [main] until either it has returned or the threads are to be
    started with the settings it hands back. *)
Definition mainPrologue (argv : list string) : Prog Settings :=
  catchAll (mainTry argv).

End Main.

(** ** The send loop, the poll loop and the signal handler *)

Inductive SendPc : Type :=
| SRound        (* top of the do-while body, line 276 *)
| SForTest      (* the condition of the for loop, line 286 *)
| SClaim        (* the condition of the retry loop, line 289 *)
| SBackPressure (* the body of the retry loop, lines 291-292 *)
| SWrite        (* lines 295-296 and the increment of the for loop *)
| SReport       (* lines 299-305 *)
| SLinger       (* lines 307-313 *)
| SAgain        (* the condition of the do-while, line 315 *)
| STidy         (* the scope-exit block, lines 227-228 *)
| SJoin         (* the joins, lines 230-240 *)
| SReturned.    (* return 0 *)

Inductive PollPc : Type :=
| PTest         (* the condition of the poll loop, line 256 / 264 *)
| PPoll         (* line 258 / 266 *)
| PSleep        (* line 259 / 267 *)
| PDone.

Record Sender : Type := mkSender {
  spc : SendPc;
  i : Z;                  (* std::int64_t *)
  backPressureCount : Z;  (* std::int64_t *)
  bufferClaim : BufferClaim;
  claimCalls : nat;       (* calls of tryClaim so far *)
  rounds : nat            (* answers to "Execute again?" so far *)
}.

Record Poller : Type := mkPoller {
  ppc : PollPc;
  pollCalls : nat         (* calls of poll so far *)
}.

(** [log] is the history of both threads and of the signal, newest event
    first. *)
Record State : Type := mkState {
  running : bool;
  printingActive : bool;
  sender : Sender;
  poller : Poller;
  log : list Event
}.

Inductive Action : Type := ASend | APoll | ASigInt.

Section Threads.

Variable env : Environment.
Variable settings : Settings.

(** [rateReporterThread] is non-null exactly when [settings.progress]. *)
Definition noRateReporterThread : bool := negb (progress settings).

Definition whenNoReporter (e : Event) : list Event :=
  if noRateReporterThread then [e] else [].

(** Lines 243-248: the threads are created, the main thread is about to
    enter the do-while. *)
Definition initialState : State :=
  {| running := true;
     printingActive := false;
     sender := mkSender SRound 0 0 (mkClaim 0 0) 0 0;
     poller := mkPoller PTest 0;
     log := StartPollThread
              :: (if progress settings then [StartRateReporterThread]
                  else []) |}.

(** [void sigIntHandler(int) { running = false; }] *)
Definition sigIntHandler (st : State) : State :=
  mkState false (printingActive st) (sender st) (poller st)
    (SigInt :: log st).

(** One step of the main thread. *)
Definition stepSend (st : State) : State :=
  let s := sender st in
  match spc s with
  | SRound =>
      mkState (running st) true
        (mkSender SForTest 0 0 (mkClaim 0 0) (claimCalls s) (rounds s))
        (poller st)
        (whenNoReporter RateReporterReset
           ++ SetPrintingActive true :: log st)
  | SForTest =>
      if (i s <? numberOfMessages settings) && running st then
        mkState (running st) (printingActive st)
          (mkSender SClaim (i s) (backPressureCount s) (bufferClaim s)
             (claimCalls s) (rounds s))
          (poller st)
          (OfferIdleReset :: ForTest (i s) true :: log st)
      else
        mkState (running st) (printingActive st)
          (mkSender SReport (i s) (backPressureCount s) (bufferClaim s)
             (claimCalls s) (rounds s))
          (poller st)
          (ForTest (i s) false :: log st)
  | SClaim =>
      let len := toInt32 (messageLength settings) in
      let r := tryClaimResult env (claimCalls s) in
      if r <? 0 then
        mkState (running st) (printingActive st)
          (mkSender SBackPressure (i s) (backPressureCount s)
             (bufferClaim s) (S (claimCalls s)) (rounds s))
          (poller st)
          (TryClaim len r :: log st)
      else
        mkState (running st) (printingActive st)
          (mkSender SWrite (i s) (backPressureCount s)
             (mkClaim (claimOffset env (claimCalls s)) len)
             (S (claimCalls s)) (rounds s))
          (poller st)
          (TryClaim len r :: log st)
  | SBackPressure =>
      mkState (running st) (printingActive st)
        (mkSender SClaim (i s) (toInt64 (backPressureCount s + 1))
           (bufferClaim s) (claimCalls s) (rounds s))
        (poller st)
        (OfferIdle :: BackPressure :: log st)
  | SWrite =>
      mkState (running st) (printingActive st)
        (mkSender SForTest (toInt64 (i s + 1)) (backPressureCount s)
           (bufferClaim s) (claimCalls s) (rounds s))
        (poller st)
        (Commit (bufferClaim s)
           :: PutInt64 (bufferClaim s) (offset (bufferClaim s)) (i s)
           :: log st)
  | SReport =>
      mkState (running st) (printingActive st)
        (mkSender SLinger (i s) (backPressureCount s) (bufferClaim s)
           (claimCalls s) (rounds s))
        (poller st)
        (PrintRatio (Div (OfInt64 (backPressureCount s))
                       (OfInt64 (numberOfMessages settings)))
           :: Print Cout [Str "Done streaming. Back pressure ratio "]
           :: whenNoReporter RateReporterReport ++ log st)
  | SLinger =>
      mkState (running st) false
        (mkSender SAgain (i s) (backPressureCount s) (bufferClaim s)
           (claimCalls s) (rounds s))
        (poller st)
        (SetPrintingActive false
           :: (if running st && (lingerTimeoutMs settings >? 0) then
                 [ SleepMillis (lingerTimeoutMs settings);
                   Print Cout [Str "Lingering for ";
                               Int (lingerTimeoutMs settings);
                               Str " milliseconds."; Endl] ]
               else [])
           ++ log st)
  | SAgain =>
      if running st then
        let answer := executeAgain env (rounds s) in
        mkState (running st) (printingActive st)
          (mkSender (if answer then SRound else STidy) (i s)
             (backPressureCount s) (bufferClaim s) (claimCalls s)
             (S (rounds s)))
          (poller st)
          (ContinuationBarrier "Execute again?" answer :: log st)
      else
        mkState (running st) (printingActive st)
          (mkSender STidy (i s) (backPressureCount s) (bufferClaim s)
             (claimCalls s) (rounds s))
          (poller st) (log st)
  | STidy =>
      mkState false (printingActive st)
        (mkSender SJoin (i s) (backPressureCount s) (bufferClaim s)
           (claimCalls s) (rounds s))
        (poller st)
        (RateReporterHalt :: log st)
  | SJoin =>
      match ppc (poller st) with
      | PDone =>
          mkState (running st) (printingActive st)
            (mkSender SReturned (i s) (backPressureCount s)
               (bufferClaim s) (claimCalls s) (rounds s))
            (poller st)
            ((if progress settings then [JoinRateReporterThread] else [])
               ++ JoinPollThread :: log st)
      | _ => st
      end
  | SReturned => st
  end.

(** The two branches of line 255 run the same loop and differ in the
    time they sleep. *)
Definition pollSleep : Z :=
  if subscriptionDelay settings =? 0 then 0
  else subscriptionDelay settings.

(** One step of the poll thread. *)
Definition stepPoll (st : State) : State :=
  let p := poller st in
  match ppc p with
  | PTest =>
      mkState (running st) (printingActive st) (sender st)
        (mkPoller (if running st then PPoll else PDone) (pollCalls p))
        (PollTest (running st) :: log st)
  | PPoll =>
      let n := pollFragments env (pollCalls p) in
      mkState (running st) (printingActive st) (sender st)
        (mkPoller PSleep (S (pollCalls p)))
        (PollIdle n :: Poll (fragmentCountLimit settings) n :: log st)
  | PSleep =>
      mkState (running st) (printingActive st) (sender st)
        (mkPoller PTest (pollCalls p))
        (SleepMicros pollSleep :: log st)
  | PDone => st
  end.

Definition act (st : State) (a : Action) : State :=
  match a with
  | ASend => stepSend st
  | APoll => stepPoll st
  | ASigInt => sigIntHandler st
  end.

(** The state after an interleaving of steps of the two threads and
    deliveries of SIGINT. *)
Definition exec (schedule : list Action) (st : State) : State :=
  fold_left act schedule st.

Definition run (schedule : list Action) : State :=
  exec schedule initialState.

(** The events in time order. *)
Definition history (st : State) : list Event := rev (log st).

End Threads.

(** ** The whole program *)

Section Program.

Context {api : CommandOptionParserApi}.
Variable cfg : Configuration.
Variable env : Environment.

(** What [main] has printed and done, in time order, and the value it
    returned if it has returned, when the threads and the signal are
    interleaved as [schedule] says. *)
Definition main (argv : list string) (schedule : list Action)
  : list Event * option Z :=
  match mainPrologue cfg env argv with
  | (out, Returns settings) =>
      let st := run env settings schedule in
      (out ++ history st,
       match spc (sender st) with
       | SReturned => Some 0
       | _ => None
       end)
  | (out, Exits status) => (out, Some status)
  | (out, Throws _) => (out, None)
  end.

End Program.

(** ** Reading the history *)

Fixpoint count (p : Event -> bool) (l : list Event) : nat :=
  match l with
  | [] => O
  | e :: rest => if p e then S (count p rest) else count p rest
  end.

Definition isTryClaim (e : Event) : bool :=
  match e with TryClaim _ _ => true | _ => false end.

Definition isFailedClaim (e : Event) : bool :=
  match e with TryClaim _ r => r <? 0 | _ => false end.

Definition isSuccessfulClaim (e : Event) : bool :=
  match e with TryClaim _ r => negb (r <? 0) | _ => false end.

Definition isCommit (e : Event) : bool :=
  match e with Commit _ => true | _ => false end.

Definition isPoll (e : Event) : bool :=
  match e with Poll _ _ => true | _ => false end.

Definition isSigInt (e : Event) : bool :=
  match e with SigInt => true | _ => false end.

Definition isClaimOrCommit (e : Event) : bool := isTryClaim e || isCommit e.

Definition isClaimOrPoll (e : Event) : bool := isTryClaim e || isPoll e.

(** A loop passed its test of the flag and begins an iteration. *)
Definition beginsIteration (e : Event) : bool :=
  match e with
  | ForTest _ passed => passed
  | PollTest passed => passed
  | _ => false
  end.

(** The part of a log (newest first) written in the current pass through
    the do-while body, which starts by setting [printingActive]. *)
Fixpoint thisRound (l : list Event) : list Event :=
  match l with
  | [] => []
  | SetPrintingActive true :: _ => []
  | e :: rest => e :: thisRound rest
  end.

(** The part of a log (newest first) written after the first SIGINT was
    delivered; empty if none was. *)
Fixpoint sinceSigInt (l : list Event) : list Event :=
  match l with
  | [] => []
  | e :: rest => if existsb isSigInt rest then e :: sinceSigInt rest else []
  end.

(** The sequence numbers written into the messages, newest first. *)
Fixpoint written (l : list Event) : list Z :=
  match l with
  | [] => []
  | PutInt64 _ _ v :: rest => v :: written rest
  | _ :: rest => written rest
  end.

(** [n-1, ..., 1, 0] *)
Definition countdown (n : nat) : list Z := map Z.of_nat (rev (seq 0 n)).

(** The publication does not push back for ever: after any number of
    calls of [tryClaim] some later call succeeds. *)
Definition eventuallyClaims (env : Environment) : Prop :=
  forall k : nat, exists k' : nat, (k <= k')%nat /\ 0 <= tryClaimResult env k'.

(** The flag is true at every moment of the schedule. *)
Definition staysRunning (env : Environment) (settings : Settings)
    (schedule : list Action) : bool :=
  forallb (fun n => running (run env settings (firstn n schedule)))
    (seq 0 (S (List.length schedule))).

(** A claim or a commit of a message of [len] bytes. *)
Definition offersLength (len : Z) (e : Event) : Prop :=
  match e with
  | TryClaim l _ => l = len
  | Commit c => length c = len
  | _ => True
  end.

(** The events of [mainTry] between the parse and the length check. *)
Definition setupEvents (env : Environment) (s : Settings) : list Event :=
  [ Print Cout [Str "Subscribing to channel "; Str (sChannel s);
                Str " on Stream ID "; Int (sStreamId s); Endl];
    Print Cout [Str "Streaming "; WithCommas (numberOfMessages s);
                Str " messages of payload length "; Int (messageLength s);
                Str " bytes to "; Str (sChannel s); Str " on stream ID ";
                Int (sStreamId s); Endl] ]
  ++ (if String.eqb (dirPrefix s) "" then [] else [AeronDir (dirPrefix s)])
  ++ [ AeronConnect; InstallSigIntHandler;
       AddSubscription (sChannel s) (sStreamId s);
       AddPublication (pChannel s) (pStreamId s) ]
  ++ repeat Yield (subscriptionSpins env)
  ++ repeat Yield (publicationSpins env).

(** Line 209-211. *)
Definition tryClaimLimitError (env : Environment) (s : Settings) : Event :=
  Print Cerr [Str "ERROR - tryClaim limit: messageLength=";
              Int (messageLength s); Str " > maxPayloadLength=";
              Int (maxPayloadLength env);
              Str ", use publication offer or increase MTU."; Endl].

(** After SIGINT was delivered no call of [tryClaim] and no call of
    [poll] is made. *)
Definition quietAfterSigInt (env : Environment) (s : Settings)
    (sched : list Action) : Prop :=
  count isClaimOrPoll (sinceSigInt (log (run env s sched))) = O.

(** The bytes [putInt64(index, _)] writes lie in the claimed message. *)
Definition withinClaim (c : BufferClaim) (index : Z) : Prop :=
  offset c <= index /\ index + sizeofInt64 <= offset c + length c.

(** ** Invariants *)

(** The ranges [parseCmdLine] hands to the ranged getters. *)
Definition validSettings (s : Settings) : Prop :=
  1 <= pStreamId s <= INT32_MAX /\
  1 <= sStreamId s <= INT32_MAX /\
  0 <= numberOfMessages s <= INT64_MAX /\
  sizeofInt64 <= messageLength s <= INT32_MAX /\
  0 <= lingerTimeoutMs s <= 3600000 /\
  1 <= fragmentCountLimit s <= INT32_MAX /\
  0 <= subscriptionDelay s <= INT32_MAX.

(** The same ranges for the constants an absent option falls back to. *)
Definition validDefaults (cfg : Configuration) : Prop :=
  1 <= DEFAULT_STREAM_ID cfg <= INT32_MAX /\
  0 <= DEFAULT_NUMBER_OF_MESSAGES cfg <= INT64_MAX /\
  sizeofInt64 <= DEFAULT_MESSAGE_LENGTH cfg <= INT32_MAX /\
  0 <= DEFAULT_LINGER_TIMEOUT_MS cfg <= 3600000 /\
  1 <= DEFAULT_FRAGMENT_COUNT_LIMIT cfg <= INT32_MAX.

Section Invariants.

Variable settings : Settings.

(** Failed claims that are in the log and not yet in the counter. *)
Definition uncounted (pc : SendPc) : nat :=
  match pc with SBackPressure => 1%nat | _ => O end.

(** Successful claims that are in the log and not yet committed. *)
Definition uncommitted (pc : SendPc) : nat :=
  match pc with SWrite => 1%nat | _ => O end.

Definition midIteration (pc : SendPc) : bool :=
  match pc with SClaim | SBackPressure | SWrite => true | _ => false end.

(** Every claim asks for the message length, and every write and commit
    goes to a claim of that length, at its offset. *)
Definition wellFormed (e : Event) : Prop :=
  match e with
  | TryClaim len _ => len = toInt32 (messageLength settings)
  | PutInt64 c index _ =>
      index = offset c /\ length c = toInt32 (messageLength settings)
  | Commit c => length c = toInt32 (messageLength settings)
  | _ => True
  end.

Definition counterInv (st : State) : Prop :=
  let s := sender st in
  let round := thisRound (log st) in
  Forall wellFormed (log st) /\
  (spc s <> SRound ->
   backPressureCount s
     = toInt64 (Z.of_nat (count isFailedClaim round)
                - Z.of_nat (uncounted (spc s))) /\
   count isSuccessfulClaim round
     = (count isCommit round + uncommitted (spc s))%nat /\
   (spc s = SWrite ->
    length (bufferClaim s) = toInt32 (messageLength settings))).

Definition indexInv (st : State) : Prop :=
  let s := sender st in
  let round := thisRound (log st) in
  spc s <> SRound ->
  i s = Z.of_nat (count isCommit round) /\
  written round = countdown (count isCommit round) /\
  i s <= numberOfMessages settings /\
  (midIteration (spc s) = true -> i s < numberOfMessages settings) /\
  (spc s = SReport -> running st = true -> i s = numberOfMessages settings).

(** Once SIGINT is in the log the flag is false, no loop passes its
    test, the poll loop finishes at most the poll it had begun and the
    send loop at most the message it had begun. *)
Definition shutdownInv (st : State) : Prop :=
  let after := sinceSigInt (log st) in
  (existsb isSigInt (log st) = true -> running st = false) /\
  count beginsIteration after = O /\
  (count isPoll after <= 1)%nat /\
  (ppc (poller st) = PPoll -> count isPoll after = O) /\
  (count isCommit after <= 1)%nat /\
  (midIteration (spc (sender st)) = true -> count isCommit after = O).

End Invariants.

(** ** The rate callbacks *)

(** The pieces of one line written with [std::printf]: text of the
    format, a [double] under [%.04g], a 64-bit integer under [PRId64]. *)
Inductive Piece (double : Type) : Type :=
| Lit (s : string)
| G4 (d : double)
| D64 (z : Z).
Arguments Lit {double} s.
Arguments G4 {double} d.
Arguments D64 {double} z.

(** [totalBytes / (1024 * 1024)] on 64-bit integers rounds towards 0. *)
Definition megabytes (totalBytes : Z) : Z := Z.quot totalBytes (1024 * 1024).

(** [printRateB], lines 95-103; [active] is what [printingActive] holds
    when it is called.  [None]: nothing is printed. *)
Definition printRateB {double : Type} (active : bool)
    (messagesPerSec bytesPerSec : double)
    (totalFragments totalBytes backPressure : Z)
  : option (list (Piece double)) :=
  if active then
    Some [ G4 messagesPerSec; Lit " msgs/sec, "; G4 bytesPerSec;
           Lit " bytes/sec, totals "; D64 totalFragments; Lit " messages ";
           D64 (megabytes totalBytes); Lit " MB payloads, ";
           D64 backPressure;
           Lit (String.append " back pressure" (String "010" "")) ]
  else None.

(** [printRate], lines 105-113. *)
Definition printRate {double : Type} (active : bool)
    (messagesPerSec bytesPerSec : double) (totalFragments totalBytes : Z)
  : option (list (Piece double)) :=
  if active then
    Some [ G4 messagesPerSec; Lit " msgs/sec, "; G4 bytesPerSec;
           Lit " bytes/sec, totals "; D64 totalFragments; Lit " messages ";
           D64 (megabytes totalBytes);
           Lit (String.append " MB payloads" (String "010" "")) ]
  else None.

(** ** More readers of the history *)

Definition isUsage (e : Event) : bool :=
  match e with DisplayOptionsHelp _ _ => true | _ => false end.

Definition isBackPressure (e : Event) : bool :=
  match e with BackPressure => true | _ => false end.

Definition isPutInt64 (e : Event) : bool :=
  match e with PutInt64 _ _ _ => true | _ => false end.

Definition isLinger (e : Event) : bool :=
  match e with SleepMillis _ => true | _ => false end.

Definition isPrompt (e : Event) : bool :=
  match e with ContinuationBarrier _ _ => true | _ => false end.

Definition isSleepMicros (e : Event) : bool :=
  match e with SleepMicros _ => true | _ => false end.

Definition isPollIdle (e : Event) : bool :=
  match e with PollIdle _ => true | _ => false end.

Definition isRoundStart (e : Event) : bool :=
  match e with SetPrintingActive true => true | _ => false end.

Definition isPrintRatio (e : Event) : bool :=
  match e with PrintRatio _ => true | _ => false end.

Definition isReporterReset (e : Event) : bool :=
  match e with RateReporterReset => true | _ => false end.

Definition isReporterReport (e : Event) : bool :=
  match e with RateReporterReport => true | _ => false end.

Definition isReporterThread (e : Event) : bool :=
  match e with
  | StartRateReporterThread | JoinRateReporterThread => true
  | _ => false
  end.

(** The main thread is between line 279 and line 313. *)
Definition inRound (pc : SendPc) : bool :=
  match pc with
  | SForTest | SClaim | SBackPressure | SWrite | SReport | SLinger => true
  | _ => false
  end.

(** The main thread is in the retry loop of lines 289-293. *)
Definition retrying (pc : SendPc) : bool :=
  match pc with SClaim | SBackPressure => true | _ => false end.

(** The first two lines [main] prints and the directory it sets. *)
Definition bannerEvents (s : Settings) : list Event :=
  [ Print Cout [Str "Subscribing to channel "; Str (sChannel s);
                Str " on Stream ID "; Int (sStreamId s); Endl];
    Print Cout [Str "Streaming "; WithCommas (numberOfMessages s);
                Str " messages of payload length "; Int (messageLength s);
                Str " bytes to "; Str (sChannel s); Str " on stream ID ";
                Int (sStreamId s); Endl] ]
  ++ (if String.eqb (dirPrefix s) "" then [] else [AeronDir (dirPrefix s)]).

(** The configuration with another value for
    [DEFAULT_PUBLICATION_RATE_PROGRESS]. *)
Definition withProgressDefault (b : bool) (cfg : Configuration)
  : Configuration :=
  mkConfiguration (DEFAULT_CHANNEL cfg) (DEFAULT_STREAM_ID cfg)
    (DEFAULT_NUMBER_OF_MESSAGES cfg) (DEFAULT_MESSAGE_LENGTH cfg)
    (DEFAULT_LINGER_TIMEOUT_MS cfg) (DEFAULT_FRAGMENT_COUNT_LIMIT cfg) b.

Section MoreInvariants.

Variable settings : Settings.

(** The flag is false once the scope-exit block has run, [main] returns
    only when the poll thread has ended, and [printingActive] is true
    exactly inside a round. *)
Definition lifeInv (st : State) : Prop :=
  (match spc (sender st) with
   | SJoin | SReturned => running st = false
   | _ => True
   end) /\
  (spc (sender st) = SReturned -> ppc (poller st) = PDone) /\
  printingActive st = inRound (spc (sender st)).

(** Every call of [tryClaim] is in the log, every failed one is counted
    and every successful one written and committed, but for the one the
    main thread is dealing with. *)
Definition accountInv (st : State) : Prop :=
  count isTryClaim (log st) = claimCalls (sender st) /\
  count isFailedClaim (log st)
    = (count isBackPressure (log st) + uncounted (spc (sender st)))%nat /\
  count isSuccessfulClaim (log st)
    = (count isCommit (log st) + uncommitted (spc (sender st)))%nat /\
  count isPutInt64 (log st) = count isCommit (log st).

(** What a poll, its idle and the sleep after it are called with. *)
Definition pollEvent (e : Event) : Prop :=
  match e with
  | Poll limit _ => limit = fragmentCountLimit settings
  | SleepMicros us => us = subscriptionDelay settings
  | _ => True
  end.

(** Polls that are in the log and not yet followed by their sleep. *)
Definition unslept (pc : PollPc) : nat :=
  match pc with PSleep => 1%nat | _ => O end.

Definition pollInv (st : State) : Prop :=
  Forall pollEvent (log st) /\
  count isPoll (log st) = pollCalls (poller st) /\
  count isPollIdle (log st) = count isPoll (log st) /\
  count isPoll (log st)
    = (count isSleepMicros (log st) + unslept (ppc (poller st)))%nat.

(** A linger sleeps for the positive [lingerTimeoutMs]. *)
Definition lingerEvent (e : Event) : Prop :=
  match e with
  | SleepMillis ms => ms = lingerTimeoutMs settings /\ 0 < ms
  | _ => True
  end.

Definition lingerInv (st : State) : Prop :=
  (existsb isSigInt (log st) = true -> running st = false) /\
  Forall lingerEvent (log st) /\
  count isLinger (sinceSigInt (log st)) = O /\
  count isPrompt (sinceSigInt (log st)) = O /\
  count isPrompt (log st) = rounds (sender st).

(** Which of the two ways of reporting the rate is in use. *)
Definition modeInv (st : State) : Prop :=
  count isReporterReset (log st)
    = (if progress settings then O else count isRoundStart (log st)) /\
  count isReporterReport (log st)
    = (if progress settings then O else count isPrintRatio (log st)) /\
  (if progress settings then True
   else count isReporterThread (log st) = O).

End MoreInvariants.

(** The flag was cleared before either loop began an iteration. *)
Definition idleInv (st : State) : Prop :=
  running st = false /\
  midIteration (spc (sender st)) = false /\
  (ppc (poller st) = PTest \/ ppc (poller st) = PDone) /\
  count isTryClaim (log st) = O /\
  count isCommit (log st) = O /\
  count isPoll (log st) = O.

(** ** A parser to run the program on *)

Module ParserModel.

Local Infix "+++" := String.append (right associativity, at level 60).

(** Modelled from the spec: the state of the option parser of
    [util/CommandOptionParser.h], which is not among the sources: the
    registered options, each with the parameters the command line gave
    it. *)
Record OptionState : Type := mkOptionState
  { spec : OptionSpec; present : bool; params : list string }.

Definition ParserState : Type := list OptionState.

Definition UNNAMED : ascii := ascii_of_nat 255.

Definition hasChar (c : ascii) (o : OptionState) : bool :=
  Ascii.eqb (optionChar (spec o)) c.

Definition lookup (p : ParserState) (c : ascii) : option OptionState :=
  find (hasChar c) p.

Definition update (p : ParserState) (c : ascii)
    (f : OptionState -> OptionState) : ParserState :=
  map (fun o => if hasChar c o then f o else o) p.

(** Modelled from the spec: [addOption] of the absent parser.  Options
    are kept by their character: a second option registered under the same
    character replaces the first. *)
Definition addOption (p : ParserState) (o : OptionSpec) : ParserState :=
  let fresh := mkOptionState o false [] in
  match lookup p (optionChar o) with
  | Some _ => update p (optionChar o) (fun _ => fresh)
  | None => p ++ [fresh]
  end.

Definition newParser : ParserState :=
  addOption [] (mkOption UNNAMED 0 0 "Unnamed Options").

Definition setPresent (o : OptionState) : OptionState :=
  mkOptionState (spec o) true (params o).

Definition addParam (a : string) (o : OptionState) : OptionState :=
  mkOptionState (spec o) (present o) (params o ++ [a]).

(** The characters of one [-abc] argument, each a registered flag. *)
Fixpoint markPresent (cs : string) (cur : ascii) (p : ParserState)
  : Outcome (ascii * ParserState) :=
  match cs with
  | EmptyString => Returns (cur, p)
  | String c rest =>
      match lookup p c with
      | None =>
          Throws (CommandOptionException
                    ("-" +++ String c " is not a valid command option"))
      | Some _ => markPresent rest c (update p c setPresent)
      end
  end.

Fixpoint parseArgs (args : list string) (cur : ascii) (p : ParserState)
  : Outcome ParserState :=
  match args with
  | [] => Returns p
  | a :: rest =>
      match a with
      | String "-" (String c cs) =>
          match markPresent (String c cs) cur p with
          | Returns (cur', p') => parseArgs rest cur' p'
          | Throws e => Throws e
          | Exits n => Exits n
          end
      | _ => parseArgs rest cur (update p cur (addParam a))
      end
  end.

Definition validate (o : OptionState) : Outcome unit :=
  if present o then
    if (maxParams (spec o) <? List.length (params o))%nat then
      Throws (CommandOptionException
                ("option -" +++ String (optionChar (spec o))
                   " has too many parameters specified"))
    else if (List.length (params o) <? minParams (spec o))%nat then
      Throws (CommandOptionException
                ("option -" +++ String (optionChar (spec o))
                   " has too few parameters specified"))
    else Returns tt
  else Returns tt.

Fixpoint validateAll (os : list OptionState) : Outcome unit :=
  match os with
  | [] => Returns tt
  | o :: rest =>
      match validate o with
      | Returns _ => validateAll rest
      | other => other
      end
  end.

(** Modelled from the spec: [parse] of the absent parser.  [argv[0]] is
    the name of the program; flags are single characters after a dash, the
    arguments that follow a flag are its parameters, and a flag that was
    not registered or that has the wrong number of parameters is an
    invalid option. *)
Definition parse (p : ParserState) (argv : list string)
  : Outcome ParserState :=
  match parseArgs (tl argv) UNNAMED (update p UNNAMED setPresent) with
  | Returns p' =>
      match validateAll p' with
      | Returns _ => Returns p'
      | Throws e => Throws e
      | Exits n => Exits n
      end
  | other => other
  end.

(** Modelled from the spec: [getOption] of the absent parser. *)
Definition getOption (p : ParserState) (c : ascii) : Outcome OptionState :=
  match lookup p c with
  | Some o => Returns o
  | None =>
      Throws (CommandOptionException
                ("CommandOptionParser::getOption invalid option lookup: "
                   +++ String c ""))
  end.

(** Modelled from the spec: the usage text [displayOptionsHelp] of the
    absent parser prints, a line for each registered flag. *)
Definition optionsHelp (p : ParserState) : string :=
  fold_right
    (fun o acc =>
       if Ascii.eqb (optionChar (spec o)) UNNAMED then acc
       else "    -" +++ String (optionChar (spec o)) " "
              +++ helpText (spec o) +++ String "010" acc)
    "" p.

Definition digit (c : ascii) : option Z :=
  let n := Z.of_N (N_of_ascii c) in
  if (48 <=? n) && (n <=? 57) then Some (n - 48) else None.

Fixpoint readDigits (s : string) (acc : Z) : option Z :=
  match s with
  | EmptyString => Some acc
  | String c rest =>
      match digit c with
      | Some d => readDigits rest (10 * acc + d)
      | None => None
      end
  end.

(** A decimal numeral with an optional sign. *)
Definition readInteger (s : string) : option Z :=
  match s with
  | EmptyString => None
  | String "-" (String c cs) => option_map Z.opp (readDigits (String c cs) 0)
  | String "+" (String c cs) => readDigits (String c cs) 0
  | _ => readDigits s 0
  end.

(** [parse<T>(param)]: the numeral has to fit in [T]. *)
Definition parseNumber (tmin tmax : Z) (s : string) : Outcome Z :=
  match readInteger s with
  | Some z =>
      if (tmin <=? z) && (z <=? tmax) then Returns z
      else Throws (SourcedException ("failed to parse: " +++ s) "parse")
  | None => Throws (SourcedException ("failed to parse: " +++ s) "parse")
  end.

Definition paramAt (o : OptionState) (index : nat) : Outcome string :=
  match nth_error (params o) index with
  | Some s => Returns s
  | None =>
      Throws (CommandOptionException "Internal Error: index out of range")
  end.

(** Modelled from the spec: [getParam] of the absent parser: the
    parameter of a flag that is present, the default otherwise. *)
Definition getParam (o : OptionState) (index : nat) (dflt : string)
  : Outcome string :=
  if present o then paramAt o index else Returns dflt.

(** Modelled from the spec: the ranged getters of the absent parser,
    with the spec's "basic range validation": the parameter of a flag that
    is present has to be a numeral of the getter's type inside the range;
    the default is handed back for a flag that is absent. *)
Definition getRanged (tmin tmax : Z) (o : OptionState) (index : nat)
    (lo hi dflt : Z) : Outcome Z :=
  if present o then
    match paramAt o index with
    | Returns s =>
        match parseNumber tmin tmax s with
        | Returns v =>
            if (v <? lo) || (hi <? v) then
              Throws (CommandOptionException
                        ("value out of range on option -"
                           +++ String (optionChar (spec o)) ""))
            else Returns v
        | other => other
        end
    | Throws e => Throws e
    | Exits n => Exits n
    end
  else Returns dflt.

Definition getParamAsInt := getRanged INT32_MIN INT32_MAX.
Definition getParamAsLong := getRanged INT64_MIN INT64_MAX.

End ParserModel.

(** ** Facts about conversions and the sequencing of [Prog] *)

Lemma toInt32_id (z : Z) : isInt32 z -> toInt32 z = z.
Proof.
  unfold isInt32, INT32_MIN, INT32_MAX, toInt32, wrap. intros H.
  change (2 ^ (32 - 1)) with 2147483648. change (2 ^ 32) with 4294967296.
  rewrite Z.mod_small; lia.
Qed.

Lemma toInt64_id (z : Z) : isInt64 z -> toInt64 z = z.
Proof.
  unfold isInt64, INT64_MIN, INT64_MAX, toInt64, wrap. intros H.
  change (2 ^ (64 - 1)) with 9223372036854775808.
  change (2 ^ 64) with 18446744073709551616.
  rewrite Z.mod_small; lia.
Qed.

Lemma bind_Returns {A B : Type} (m : Prog A) (k : A -> Prog B) out b :
  bind m k = (out, Returns b) ->
  exists out1 a out2,
    m = (out1, Returns a) /\ k a = (out2, Returns b) /\ out = out1 ++ out2.
Proof.
  destruct m as [out1 [a | e | n]]; cbn; try discriminate.
  destruct (k a) as [out2 r] eqn:Hk. intros E. injection E as <- ->.
  now exists out1, a, out2.
Qed.

Lemma bind_silent {A B : Type} (m : Prog A) (k : A -> Prog B) :
  fst m = [] -> (forall a, fst (k a) = []) -> fst (bind m k) = [].
Proof.
  destruct m as [out [a | e | n]]; cbn; intros -> Hk; try reflexivity.
  specialize (Hk a). destruct (k a) as [out2 r]. exact Hk.
Qed.

(** ** Facts about parseCmdLine *)

Section ParseFacts.

Context {api : CommandOptionParserApi}.
Variable cfg : Configuration.

Ltac unfold_readers :=
  cbv beta zeta delta
    [readSettings optParam optParamAsInt optParamAsLong optPresent].

Lemma optParamAsInt_Returns cp c lo hi dflt out v :
  optParamAsInt cp c lo hi dflt = (out, Returns v) ->
  isInt32 lo -> isInt32 hi -> isInt32 dflt ->
  out = [] /\ (v = dflt \/ lo <= v <= hi).
Proof.
  unfold optParamAsInt. intros H Hlo Hhi Hd.
  destruct (getOption cp c) as [o | e | n]; cbn in H; try discriminate.
  destruct (getParamAsInt o 0 lo hi dflt) as [w | e | n] eqn:Hw;
    cbn in H; try discriminate.
  injection H as <- <-. split; [reflexivity |].
  apply getParamAsInt_range in Hw.
  rewrite toInt32_id; [exact Hw |].
  unfold isInt32 in *. destruct Hw as [-> | Hw]; lia.
Qed.

Lemma optParamAsLong_Returns cp c lo hi dflt out v :
  optParamAsLong cp c lo hi dflt = (out, Returns v) ->
  isInt64 lo -> isInt64 hi -> isInt64 dflt ->
  out = [] /\ (v = dflt \/ lo <= v <= hi).
Proof.
  unfold optParamAsLong. intros H Hlo Hhi Hd.
  destruct (getOption cp c) as [o | e | n]; cbn in H; try discriminate.
  destruct (getParamAsLong o 0 lo hi dflt) as [w | e | n] eqn:Hw;
    cbn in H; try discriminate.
  injection H as <- <-. split; [reflexivity |].
  apply getParamAsLong_range in Hw.
  rewrite toInt64_id; [exact Hw |].
  unfold isInt64 in *. destruct Hw as [-> | Hw]; lia.
Qed.

(** The getters print nothing. *)
Lemma readSettings_silent cp : fst (readSettings cfg cp) = [].
Proof.
  unfold_readers.
  repeat (apply bind_silent; [reflexivity | intros ?]).
  repeat first
    [ reflexivity
    | apply bind_silent; [| intros ?]
    | match goal with
      | |- fst (call _) = [] => reflexivity
      | |- fst (ret _) = [] => reflexivity
      end ].
Qed.

Ltac invert_bind H :=
  apply bind_Returns in H;
  let a := fresh "v" in
  let Hm := fresh "Hget" in
  destruct H as (? & a & ? & Hm & H & ?).

(** What [readSettings] returns, field by field. *)
Lemma readSettings_Returns cp out s :
  readSettings cfg cp = (out, Returns s) ->
  let d := defaultSettings cfg in
  exists o1 o2 o3 o4 o5 o6 o7 o8,
    optParamAsInt cp pOptStreamId 1 INT32_MAX (pStreamId d)
      = (o1, Returns (pStreamId s)) /\
    optParamAsInt cp sOptStreamId 1 INT32_MAX (sStreamId d)
      = (o2, Returns (sStreamId s)) /\
    optParamAsLong cp optMessages 0 INT64_MAX (numberOfMessages d)
      = (o3, Returns (numberOfMessages s)) /\
    optParamAsInt cp optLength (toInt32 sizeofInt64) INT32_MAX
        (toInt32 (messageLength d))
      = (o4, Returns (messageLength s)) /\
    optParamAsInt cp optLinger 0 (60 * 60 * 1000) (lingerTimeoutMs d)
      = (o5, Returns (lingerTimeoutMs s)) /\
    optParamAsInt cp optFrags 1 INT32_MAX (fragmentCountLimit d)
      = (o6, Returns (fragmentCountLimit s)) /\
    optParamAsInt cp optSubscriptionDelay 0 INT32_MAX (subscriptionDelay d)
      = (o7, Returns (subscriptionDelay s)) /\
    optPresent cp optProgress = (o8, Returns (progress s)).
Proof.
  intros H d. unfold readSettings in H. cbv zeta in H.
  do 11 invert_bind H.
  injection H as _ <-.
  do 8 eexists. repeat split; eassumption.
Qed.

Lemma readSettings_streamIds cp out s :
  readSettings cfg cp = (out, Returns s) -> pStreamId s = sStreamId s.
Proof.
  intros H. apply readSettings_Returns in H.
  destruct H as (o1 & o2 & _ & _ & _ & _ & _ & _ & Hp & Hs & _).
  assert (E : (o1, Returns (pStreamId s)) = (o2, Returns (sStreamId s)))
    by exact (eq_trans (eq_sym Hp) Hs).
  now injection E.
Qed.

Lemma defaults_fit :
  validDefaults cfg ->
  let d := defaultSettings cfg in
  pStreamId d = DEFAULT_STREAM_ID cfg /\
  sStreamId d = DEFAULT_STREAM_ID cfg /\
  numberOfMessages d = DEFAULT_NUMBER_OF_MESSAGES cfg /\
  messageLength d = DEFAULT_MESSAGE_LENGTH cfg /\
  lingerTimeoutMs d = DEFAULT_LINGER_TIMEOUT_MS cfg /\
  fragmentCountLimit d = DEFAULT_FRAGMENT_COUNT_LIMIT cfg.
Proof.
  unfold validDefaults, sizeofInt64, INT32_MAX, INT64_MAX.
  intros (H1 & H2 & H3 & H4 & H5). cbn.
  rewrite !toInt32_id, !toInt64_id;
    unfold isInt32, isInt64, INT32_MIN, INT32_MAX, INT64_MIN, INT64_MAX;
    lia.
Qed.

Lemma readSettings_ranges cp out s :
  validDefaults cfg ->
  readSettings cfg cp = (out, Returns s) -> validSettings s.
Proof.
  intros Hd H. apply readSettings_Returns in H.
  destruct (defaults_fit Hd) as (E1 & E2 & E3 & E4 & E5 & E6).
  destruct H as (o1 & o2 & o3 & o4 & o5 & o6 & o7 & o8 & H).
  destruct H as (P1 & P2 & P3 & P4 & P5 & P6 & P7 & _).
  rewrite ?E1, ?E2, ?E3, ?E4, ?E5, ?E6 in *.
  destruct Hd as (D1 & D2 & D3 & D4 & D5).
  unfold sizeofInt64, INT32_MAX, INT64_MAX in *.
  rewrite (toInt32_id 8) in P4 by (unfold isInt32, INT32_MIN, INT32_MAX; lia).
  rewrite (toInt32_id (DEFAULT_MESSAGE_LENGTH cfg)) in P4
    by (unfold isInt32, INT32_MIN, INT32_MAX; lia).
  apply optParamAsInt_Returns in P1, P2, P4, P5, P6, P7;
    try (unfold isInt32, INT32_MIN, INT32_MAX; cbn; lia).
  apply optParamAsLong_Returns in P3;
    try (unfold isInt64, INT64_MIN, INT64_MAX; lia).
  unfold validSettings, sizeofInt64, INT32_MAX, INT64_MAX.
  cbn in P7.
  repeat split; lia.
Qed.

(** [parseCmdLine] returns what [readSettings] returns on the parsed
    options, and prints only on the way to [exit(0)]. *)
Lemma parseCmdLine_Returns cp argv out s :
  parseCmdLine cfg cp argv = (out, Returns s) ->
  out = [] /\
  exists cp', parse cp argv = Returns cp' /\
              readSettings cfg cp' = ([], Returns s).
Proof.
  unfold parseCmdLine, optPresent. intros H.
  destruct (parse cp argv) as [cp' | e | n]; cbn in H; try discriminate.
  destruct (getOption cp' optHelp) as [h | e | n]; cbn in H;
    try discriminate.
  destruct (isPresent h); cbn in H; try discriminate.
  pose proof (readSettings_silent cp') as Hs.
  destruct (readSettings cfg cp') as [out' r] eqn:Hr. cbn in *.
  subst out'. injection H as <- ->. split; [reflexivity |].
  exists cp'. split; [reflexivity | exact Hr].
Qed.

Lemma parseCmdLine_Throws cp argv out e :
  parseCmdLine cfg cp argv = (out, Throws e) -> out = [].
Proof.
  unfold parseCmdLine, optPresent. intros H.
  destruct (parse cp argv) as [cp' | e' | n]; cbn in H;
    [| now injection H | discriminate].
  destruct (getOption cp' optHelp) as [h | e' | n]; cbn in H;
    [| now injection H | discriminate].
  destruct (isPresent h); cbn in H; try discriminate.
  pose proof (readSettings_silent cp') as Hs.
  destruct (readSettings cfg cp') as [out' r]. cbn in *. subst out'.
  now injection H.
Qed.

Lemma parseCmdLine_ranges cp argv out s :
  validDefaults cfg ->
  parseCmdLine cfg cp argv = (out, Returns s) -> validSettings s.
Proof.
  intros Hd H. apply parseCmdLine_Returns in H.
  destruct H as (_ & cp' & _ & H). eapply readSettings_ranges; eauto.
Qed.

Lemma parseCmdLine_streamIds cp argv out s :
  parseCmdLine cfg cp argv = (out, Returns s) -> pStreamId s = sStreamId s.
Proof.
  intros H. apply parseCmdLine_Returns in H.
  destruct H as (_ & cp' & _ & H). eapply readSettings_streamIds; eauto.
Qed.

End ParseFacts.

(** ** Facts about main before the threads start *)

Section MainFacts.

Context {api : CommandOptionParserApi}.
Variable cfg : Configuration.
Variable env : Environment.

Lemma mainPrologue_invalid_option argv out what :
  parseCmdLine cfg registeredParser argv
    = (out, Throws (CommandOptionException what)) ->
  mainPrologue cfg env argv
    = ([ Print Cerr [Str "ERROR: "; Str what; Endl; Endl];
         DisplayOptionsHelp Cerr (optionsHelp registeredParser) ],
       Exits (-1)).
Proof.
  intros H. pose proof (parseCmdLine_Throws _ _ _ _ _ H) as ->.
  unfold mainPrologue, mainTry. rewrite H. reflexivity.
Qed.

Lemma count_app p l1 l2 : count p (l1 ++ l2) = (count p l1 + count p l2)%nat.
Proof.
  induction l1 as [| e l1 IH]; cbn; [reflexivity |].
  destruct (p e); cbn; now rewrite IH.
Qed.

Lemma count_repeat_Yield p n : p Yield = false -> count p (repeat Yield n) = O.
Proof. intros H. induction n; cbn; [reflexivity | now rewrite H]. Qed.

Lemma setupEvents_no_claim s :
  count isClaimOrCommit (setupEvents env s) = O.
Proof.
  unfold setupEvents. rewrite !count_app, !count_repeat_Yield by reflexivity.
  destruct (String.eqb (dirPrefix s) ""); reflexivity.
Qed.

Lemma mainTry_connected argv out s :
  parseCmdLine cfg registeredParser argv = (out, Returns s) ->
  connect env = Returns tt ->
  mainTry cfg env argv
    = (if messageLength s >? maxPayloadLength env then
         (setupEvents env s ++ [tryClaimLimitError env s], Exits (-1))
       else (setupEvents env s, Returns s)).
Proof.
  intros H Hc. pose proof (parseCmdLine_Returns _ _ _ _ _ H) as [-> _].
  unfold mainTry, setupEvents, tryClaimLimitError. rewrite H, Hc.
  cbn [bind ret emit call exit spin app].
  destruct (messageLength s >? maxPayloadLength env);
    destruct (String.eqb (dirPrefix s) ""); cbn;
    rewrite ?app_nil_r, <- ?app_assoc; reflexivity.
Qed.

End MainFacts.

(** ** Facts about the threads *)

Lemma toInt64_succ (z : Z) : toInt64 (toInt64 z + 1) = toInt64 (z + 1).
Proof.
  unfold toInt64, wrap.
  change (2 ^ (64 - 1)) with 9223372036854775808.
  change (2 ^ 64) with 18446744073709551616.
  f_equal.
  replace ((z + 9223372036854775808) mod 18446744073709551616
             - 9223372036854775808 + 1 + 9223372036854775808)
    with ((z + 9223372036854775808) mod 18446744073709551616 + 1) by lia.
  rewrite Zplus_mod_idemp_l. f_equal. lia.
Qed.

Lemma countdown_S (n : nat) : countdown (S n) = Z.of_nat n :: countdown n.
Proof.
  unfold countdown. rewrite seq_S, rev_app_distr. reflexivity.
Qed.

(** Case analysis on every test a step makes. *)
Ltac split_ifs :=
  repeat match goal with
         | |- context [if ?b then _ else _] => destruct b eqn:?
         | |- context [match ?p with PTest => _ | _ => _ end] =>
             destruct p eqn:?
         end.

Section ThreadFacts.

Variable env : Environment.
Variable settings : Settings.

Local Abbreviation N := (numberOfMessages settings).
Local Abbreviation stepS := (stepSend env settings).
Local Abbreviation stepP := (stepPoll env settings).
Local Abbreviation actE := (act env settings).
Local Abbreviation execE := (exec env settings).
Local Abbreviation runE := (run env settings).

Lemma exec_app a b st : execE (a ++ b) st = execE b (execE a st).
Proof. apply fold_left_app. Qed.

Lemma exec_snoc sched a st : execE (sched ++ [a]) st = actE (execE sched st) a.
Proof. apply exec_app. Qed.

(** An invariant of every step holds after every schedule. *)
Lemma exec_invariant (P : State -> Prop) :
  (forall st a, P st -> P (actE st a)) ->
  forall sched st, P st -> P (execE sched st).
Proof.
  intros Hstep sched. induction sched as [| a sched IH]; intros st H.
  - exact H.
  - cbn. apply IH, Hstep, H.
Qed.

(** *** The flag is never set again *)

Lemma running_act st a : running (actE st a) = true -> running st = true.
Proof.
  destruct a; cbn; [| | discriminate].
  - unfold stepSend.
    destruct (spc (sender st));
      repeat match goal with
             | |- context [if ?b then _ else _] => destruct b
             | |- context [match ?p with PTest => _ | _ => _ end] =>
                 destruct p
             end;
      cbn; congruence.
  - unfold stepPoll. destruct (ppc (poller st)); cbn; congruence.
Qed.

Lemma running_exec sched st :
  running (execE sched st) = true -> running st = true.
Proof.
  revert st. induction sched as [| a sched IH]; intros st H; [exact H |].
  cbn in H. apply IH in H. now apply running_act in H.
Qed.

(** *** What the log says about the send loop *)

Lemma counterInv_initial : counterInv settings (initialState settings).
Proof.
  split; [| cbn; congruence].
  unfold initialState. cbn. destruct (progress settings); repeat constructor.
Qed.

Lemma counterInv_act st a :
  counterInv settings st -> counterInv settings (actE st a).
Proof.
  unfold counterInv. intros [Hwf H]. destruct a; cbn [act].
  - unfold stepSend, whenNoReporter.
    destruct (spc (sender st)) eqn:Hpc; cbn [uncounted uncommitted] in H;
      try (destruct H as (Hbp & Hclaims & Hlen); [congruence |]);
      split_ifs; cbn -[toInt64 toInt32];
      (split; [repeat constructor; cbn; auto |]);
      try congruence; intros _;
      rewrite ?Heqb, ?Nat.add_0_r, ?Nat.add_1_r, ?Z.sub_0_r in *.
    all: try (rewrite Hpc; cbn [uncounted uncommitted]);
      rewrite ?Nat.add_0_r, ?Nat.add_1_r, ?Z.sub_0_r; cbn [negb];
      repeat split; try congruence; try lia;
      rewrite Hbp, ?toInt64_succ; f_equal; lia.
  - unfold stepPoll.
    destruct (ppc (poller st)); cbn -[toInt64 toInt32];
      (split; [repeat constructor; cbn; auto |]); exact H.
  - cbn -[toInt64 toInt32]. split; [repeat constructor; cbn; auto |].
    exact H.
Qed.

Lemma counterInv_run sched : counterInv settings (runE sched).
Proof.
  unfold run.
  apply exec_invariant; [apply counterInv_act | apply counterInv_initial].
Qed.

Hypothesis N_range : 0 <= N <= INT64_MAX.

Lemma indexInv_act st a :
  indexInv settings st -> indexInv settings (actE st a).
Proof.
  unfold indexInv. intros H. destruct a; cbn [act].
  - unfold stepSend, whenNoReporter.
    destruct (spc (sender st)) eqn:Hpc; cbn [midIteration] in H;
      try (destruct H as (Hi & Hw & Hle & Hlt & Hdone); [congruence |]);
      split_ifs; cbn -[toInt64 toInt32 countdown Z.of_nat];
      try congruence; intros _.
    all: try (rewrite Hpc; cbn [midIteration]).
    all: try (repeat split; try congruence; lia).
    + (* the test fails *)
      repeat split; try congruence; try lia.
      intros _ Hrun. rewrite Hrun, andb_true_r in Heqb.
      apply Z.ltb_ge in Heqb. lia.
    + (* the message is committed *)
      specialize (Hlt eq_refl).
      rewrite toInt64_id
        by (unfold isInt64, INT64_MIN, INT64_MAX in *; lia).
      rewrite countdown_S, Hw, <- Hi.
      repeat split; try congruence; lia.
  - unfold stepPoll.
    destruct (ppc (poller st)); cbn -[toInt64 toInt32 countdown Z.of_nat];
      exact H.
  - cbn -[toInt64 toInt32 countdown Z.of_nat]. intros Hpc.
    destruct (H Hpc) as (Hi & Hw & Hle & Hlt & _).
    repeat split; try assumption. discriminate.
Qed.

Lemma indexInv_run sched : indexInv settings (runE sched).
Proof.
  unfold run. apply exec_invariant; [apply indexInv_act |].
  unfold indexInv. cbn. congruence.
Qed.

(** *** The send loop comes to its end *)

Lemma exec_repeat_add a b st :
  execE (repeat ASend (a + b)) st
    = execE (repeat ASend b) (execE (repeat ASend a) st).
Proof. rewrite repeat_app. apply exec_app. Qed.

Lemma claim_terminates d : forall st,
  spc (sender st) = SClaim ->
  0 <= tryClaimResult env (claimCalls (sender st) + d) ->
  exists m,
    spc (sender (execE (repeat ASend m) st)) = SWrite /\
    i (sender (execE (repeat ASend m) st)) = i (sender st) /\
    running (execE (repeat ASend m) st) = running st.
Proof.
  induction d as [| d IH]; intros st Hpc Hok.
  - exists 1%nat. cbn. unfold stepSend. rewrite Hpc.
    rewrite Nat.add_0_r in Hok. apply Z.ltb_ge in Hok. rewrite Hok.
    cbn. auto.
  - destruct (tryClaimResult env (claimCalls (sender st)) <? 0) eqn:Hr.
    + destruct (IH (stepS (stepS st))) as (m & H1 & H2 & H3).
      * unfold stepSend at 2. rewrite Hpc, Hr. reflexivity.
      * unfold stepSend at 2. rewrite Hpc, Hr. cbn.
        now rewrite Nat.add_succ_r in Hok.
      * exists (2 + m)%nat. cbn [repeat Nat.add exec fold_left act].
        fold (execE (repeat ASend m) (stepS (stepS st))).
        rewrite H1, H2, H3. unfold stepSend at 2 4. rewrite Hpc, Hr.
        cbn. auto.
    + exists 1%nat. cbn. unfold stepSend. rewrite Hpc, Hr. cbn. auto.
Qed.

Lemma loop_terminates (Henv : eventuallyClaims env) n : forall st,
  spc (sender st) = SForTest ->
  0 <= i (sender st) ->
  Z.of_nat n = N - i (sender st) ->
  running st = true ->
  exists m,
    spc (sender (execE (repeat ASend m) st)) = SReport /\
    running (execE (repeat ASend m) st) = true.
Proof.
  induction n as [| n IH]; intros st Hpc Hi0 Hn Hrun.
  - exists 1%nat. cbn. unfold stepSend. rewrite Hpc.
    replace (i (sender st) <? N) with false
      by (symmetry; apply Z.ltb_ge; lia).
    cbn. auto.
  - pose (st1 := stepS st).
    assert (H1 : spc (sender st1) = SClaim /\ i (sender st1) = i (sender st)
                 /\ running st1 = true).
    { unfold st1, stepSend. rewrite Hpc, Hrun.
      replace (i (sender st) <? N) with true
        by (symmetry; apply Z.ltb_lt; lia).
      cbn. auto. }
    destruct H1 as (Hpc1 & Hi1 & Hrun1).
    destruct (Henv (claimCalls (sender st1))) as (k' & Hk & Hok).
    replace k'
      with (claimCalls (sender st1) + (k' - claimCalls (sender st1)))%nat
      in Hok by lia.
    destruct (claim_terminates _ st1 Hpc1 Hok) as (m1 & Hpc2 & Hi2 & Hrun2).
    set (st2 := execE (repeat ASend m1) st1) in *.
    pose (st3 := stepS st2).
    assert (H3 : spc (sender st3) = SForTest
                 /\ i (sender st3) = i (sender st) + 1
                 /\ running st3 = true).
    { unfold st3, stepSend. rewrite Hpc2. cbn -[toInt64].
      rewrite Hi2, Hi1, Hrun2, Hrun1.
      rewrite toInt64_id
        by (unfold isInt64, INT64_MIN, INT64_MAX in *; lia).
      auto. }
    destruct H3 as (Hpc3 & Hi3 & Hrun3).
    destruct (IH st3 Hpc3 ltac:(lia) ltac:(lia) Hrun3)
      as (m2 & Hpc4 & Hrun4).
    exists (1 + (m1 + (1 + m2)))%nat.
    rewrite (exec_repeat_add 1), (exec_repeat_add m1), (exec_repeat_add 1).
    split; assumption.
Qed.

Lemma run_terminates :
  eventuallyClaims env ->
  exists m,
    spc (sender (runE (repeat ASend m))) = SReport /\
    running (runE (repeat ASend m)) = true.
Proof.
  intros Henv.
  destruct (loop_terminates Henv (Z.to_nat N)
              (stepS (initialState settings)))
    as (m & Hpc & Hrun); try reflexivity.
  - change (i (sender (stepS (initialState settings)))) with 0. lia.
  - exists (1 + m)%nat. unfold run. rewrite exec_repeat_add.
    split; assumption.
Qed.

End ThreadFacts.

(** *** After SIGINT *)

Section Shutdown.

Variable env : Environment.
Variable settings : Settings.

Local Abbreviation actE := (act env settings).
Local Abbreviation execE := (exec env settings).
Local Abbreviation runE := (run env settings).

Lemma shutdownInv_act st a : shutdownInv st -> shutdownInv (actE st a).
Proof.
  unfold shutdownInv.
  intros (Hflag & Hbeg & Hpoll1 & Hpoll0 & Hcom1 & Hcom0).
  destruct (existsb isSigInt (log st)) eqn:Hsig.
  - (* SIGINT was delivered: the flag is false *)
    specialize (Hflag eq_refl).
    destruct a; cbn [act].
    + unfold stepSend, whenNoReporter.
      destruct (spc (sender st)) eqn:Hpc; cbn [midIteration] in Hcom0;
        rewrite ?Hflag, ?andb_false_r; split_ifs;
        cbn; rewrite ?Hsig, ?Hpc; cbn;
        repeat split; try congruence; try lia; auto.
    + unfold stepPoll.
      destruct (ppc (poller st)) eqn:Hpc; rewrite ?Hflag;
        cbn; rewrite ?Hsig, ?Hpc; cbn;
        try rewrite (Hpoll0 eq_refl);
        repeat split; try congruence; try lia; auto.
    + cbn. rewrite Hsig. cbn. repeat split; auto.
  - (* no SIGINT yet: nothing is after it *)
    assert (Hafter : sinceSigInt (log st) = []).
    { clear - Hsig. destruct (log st) as [| e l]; [reflexivity |].
      cbn in *. apply orb_false_iff in Hsig as [_ ->]. reflexivity. }
    destruct a; cbn [act].
    + unfold stepSend, whenNoReporter.
      destruct (spc (sender st)) eqn:Hpc; split_ifs;
        cbn; rewrite ?Hsig, ?Hpc; cbn;
        repeat split; try congruence; try lia; auto.
    + unfold stepPoll.
      destruct (ppc (poller st)) eqn:Hpc;
        cbn; rewrite ?Hsig, ?Hpc; cbn;
        repeat split; try congruence; try lia; auto.
    + cbn. rewrite Hsig. cbn. repeat split; auto; discriminate.
Qed.

Lemma shutdownInv_run sched : shutdownInv (runE sched).
Proof.
  unfold run. apply exec_invariant; [apply shutdownInv_act |].
  unfold shutdownInv, initialState. cbn.
  destruct (progress settings); cbn; repeat split; auto; discriminate.
Qed.

End Shutdown.

(** ** The parser of the sample runs *)

(** It validates ranges, so it implements the interface. *)
Lemma getRanged_range tmin tmax o index lo hi dflt v :
  ParserModel.getRanged tmin tmax o index lo hi dflt = Returns v ->
  v = dflt \/ lo <= v <= hi.
Proof.
  unfold ParserModel.getRanged. destruct (ParserModel.present o).
  - destruct (ParserModel.paramAt o index) as [s | e | n]; try discriminate.
    destruct (ParserModel.parseNumber tmin tmax s) as [z | e | n];
      try discriminate.
    destruct (z <? lo) eqn:Hlo; [discriminate |].
    destruct (hi <? z) eqn:Hhi; [discriminate |].
    cbn. intros E. injection E as <-. right. lia.
  - intros E. injection E as <-. now left.
Qed.

#[export] Instance parserModel : CommandOptionParserApi :=
  Build_CommandOptionParserApi
    ParserModel.ParserState ParserModel.OptionState
    ParserModel.newParser ParserModel.addOption ParserModel.parse
    ParserModel.getOption ParserModel.optionsHelp ParserModel.present
    ParserModel.getParam ParserModel.getParamAsInt
    ParserModel.getParamAsLong
    (getRanged_range INT32_MIN INT32_MAX)
    (getRanged_range INT64_MIN INT64_MAX).

(** ** Sample runs *)

Module Sample.

(** Sample values for the constants of [Configuration.h]. *)
Definition configuration : Configuration :=
  {| DEFAULT_CHANNEL := "aeron:udp?endpoint=localhost:20121";
     DEFAULT_STREAM_ID := 1001;
     DEFAULT_NUMBER_OF_MESSAGES := 10000000;
     DEFAULT_MESSAGE_LENGTH := 32;
     DEFAULT_LINGER_TIMEOUT_MS := 0;
     DEFAULT_FRAGMENT_COUNT_LIMIT := 10;
     DEFAULT_PUBLICATION_RATE_PROGRESS := false |}.

(** A publication that pushes back on every other call of [tryClaim]
    (-2 is the library's back-pressure code), an MTU that leaves 1376
    bytes of payload, and "n" as the answer to "Execute again?". *)
Definition environment : Environment :=
  {| connect := Returns tt;
     subscriptionSpins := 1;
     publicationSpins := 0;
     maxPayloadLength := 1376;
     tryClaimResult := fun k => if Nat.even k then -2 else 4096;
     claimOffset := fun _ => 32;
     pollFragments := fun _ => 0;
     executeAgain := fun _ => false |}.

Definition messages (n : Z) : Settings :=
  set_numberOfMessages n (defaultSettings configuration).

Definition streamId (n : Z) : Settings :=
  set_sStreamId n (set_pStreamId n (defaultSettings configuration)).

Definition parsed (argv : list string) : Prog Settings :=
  parseCmdLine (api := parserModel) configuration registeredParser argv.

(** The main thread alone, up to the report of the first round of two
    messages. *)
Definition twoMessages : list Action := repeat ASend 12.

(** SIGINT arrives when the send loop and the poll loop have each just
    passed their test of the flag. *)
Definition lateSigInt : list Action :=
  [ASend; ASend; APoll; ASigInt; ASend; APoll].

End Sample.

(** * The properties of the program *)

Lemma staysRunning_final env s sched :
  staysRunning env s sched = true -> running (run env s sched) = true.
Proof.
  unfold staysRunning. intros H.
  rewrite forallb_forall in H.
  specialize (H (List.length sched)).
  rewrite firstn_all in H. apply H. apply in_seq. lia.
Qed.

Lemma eventuallyClaims_sample : eventuallyClaims Sample.environment.
Proof.
  intros k. cbn. destruct (Nat.even k) eqn:Hk.
  - exists (S k). split; [lia |].
    rewrite Nat.even_succ, <- Nat.negb_even, Hk. cbn. lia.
  - exists k. split; [lia |]. rewrite Hk. lia.
Qed.

(** C1 (the code falls short of it): the publisher and the subscriber
    stream ID are both read from the flag [-s], with the same range and the
    same default, so whatever command line [parseCmdLine] accepts, with
    whatever parser, the two fields of the settings it returns are equal:
    no command line sets them apart. *)
Theorem stream_ids_coincide :
  forall (api : CommandOptionParserApi) cfg cp argv out s,
    parseCmdLine cfg cp argv = (out, Returns s) ->
    pOptStreamId = sOptStreamId /\ pStreamId s = sStreamId s.
Proof.
  intros api cfg cp argv out s H. split; [reflexivity |].
  eapply parseCmdLine_streamIds; eassumption.
Qed.

Lemma stream_ids_coincide_witness :
  Sample.parsed ["ModifiedThroughput"; "-s"; "7"]
    = ([], Returns (Sample.streamId 7)) /\
  (pOptStreamId = sOptStreamId /\
   pStreamId (Sample.streamId 7) = sStreamId (Sample.streamId 7)).
Proof.
  assert (H : Sample.parsed ["ModifiedThroughput"; "-s"; "7"]
              = ([], Returns (Sample.streamId 7)))
    by (vm_compute; reflexivity).
  split; [exact H |].
  exact (stream_ids_coincide parserModel _ _ _ _ _ H).
Defined.

(** C2: for settings returned by [parseCmdLine] (the defaults being in
    the validated ranges), whenever the send loop has come to its end with
    the flag true at every moment, exactly [numberOfMessages] messages were
    claimed and committed in this round, the sequence numbers written are
    [0 .. numberOfMessages-1], and every claim and commit is of
    [messageLength] bytes; and the loop does come to its end, with the flag
    still true, if the publication does not push back for ever. *)
Theorem send_loop_offers_all_messages :
  forall (api : CommandOptionParserApi) cfg cp argv out s env,
    validDefaults cfg ->
    parseCmdLine cfg cp argv = (out, Returns s) ->
    (forall sched,
        staysRunning env s sched = true ->
        spc (sender (run env s sched)) = SReport ->
        Z.of_nat (count isSuccessfulClaim (thisRound (log (run env s sched))))
          = numberOfMessages s /\
        Z.of_nat (count isCommit (thisRound (log (run env s sched))))
          = numberOfMessages s /\
        written (thisRound (log (run env s sched)))
          = countdown (Z.to_nat (numberOfMessages s)) /\
        Forall (offersLength (messageLength s)) (log (run env s sched))) /\
    (eventuallyClaims env ->
     exists m,
       spc (sender (run env s (repeat ASend m))) = SReport /\
       staysRunning env s (repeat ASend m) = true).
Proof.
  intros api cfg cp argv out s env Hd Hparse.
  pose proof (parseCmdLine_ranges _ _ _ _ _ Hd Hparse) as Hv.
  destruct Hv as (_ & _ & HN & HL & _).
  unfold sizeofInt64, INT32_MAX in HL.
  split.
  - intros sched Hstay Hpc. apply staysRunning_final in Hstay.
    destruct (counterInv_run env s sched) as [Hwf Hc].
    destruct Hc as (_ & Hclaims & _); [congruence |].
    destruct (indexInv_run env s HN sched) as (Hi & Hw & _ & _ & Hdone);
      [congruence |].
    specialize (Hdone Hpc Hstay).
    rewrite Hpc in Hclaims. cbn in Hclaims. rewrite Nat.add_0_r in Hclaims.
    rewrite Hclaims, <- Hi, Hdone.
    repeat split.
    + rewrite Hw. f_equal. lia.
    + eapply Forall_impl; [| exact Hwf].
      intros e. unfold wellFormed, offersLength.
      rewrite toInt32_id by (unfold isInt32, INT32_MIN, INT32_MAX; lia).
      destruct e; auto.
  - intros Henv. destruct (run_terminates env s HN Henv) as (m & Hpc & Hrun).
    exists m. split; [exact Hpc |].
    unfold staysRunning. apply forallb_forall. intros n _.
    rewrite <- (firstn_skipn n (repeat ASend m)) in Hrun.
    unfold run in *. rewrite exec_app in Hrun.
    now apply running_exec in Hrun.
Qed.

Lemma send_loop_offers_all_messages_witness :
  validDefaults Sample.configuration /\
  Sample.parsed ["ModifiedThroughput"; "-m"; "2"]
    = ([], Returns (Sample.messages 2)) /\
  staysRunning Sample.environment (Sample.messages 2) Sample.twoMessages
    = true /\
  spc (sender (run Sample.environment (Sample.messages 2) Sample.twoMessages))
    = SReport /\
  count isCommit
    (thisRound
       (log (run Sample.environment (Sample.messages 2) Sample.twoMessages)))
    = 2%nat /\
  exists m,
    spc (sender (run Sample.environment (Sample.messages 2)
                   (repeat ASend m))) = SReport /\
    staysRunning Sample.environment (Sample.messages 2) (repeat ASend m)
      = true.
Proof.
  assert (Hd : validDefaults Sample.configuration)
    by (unfold validDefaults, INT32_MAX, INT64_MAX, sizeofInt64; cbn; lia).
  assert (Hp : Sample.parsed ["ModifiedThroughput"; "-m"; "2"]
               = ([], Returns (Sample.messages 2)))
    by (vm_compute; reflexivity).
  assert (Hs : staysRunning Sample.environment (Sample.messages 2)
                 Sample.twoMessages = true)
    by (vm_compute; reflexivity).
  assert (Hpc : spc (sender (run Sample.environment (Sample.messages 2)
                               Sample.twoMessages)) = SReport)
    by (vm_compute; reflexivity).
  destruct (send_loop_offers_all_messages parserModel _ _ _ _ _
              Sample.environment Hd Hp) as [Hsafe Hlive].
  destruct (Hsafe _ Hs Hpc) as (_ & Hcommits & _).
  split; [exact Hd |]. split; [exact Hp |]. split; [exact Hs |].
  split; [exact Hpc |]. split.
  - apply Nat2Z.inj. exact Hcommits.
  - exact (Hlive eventuallyClaims_sample).
Defined.

(** C3: when the send loop has come to its end, the next step of the
    main thread prints the ratio whose numerator is the number of calls of
    [tryClaim] that returned a negative value in this round (as long as
    that number fits the 64-bit counter) and whose denominator is
    [numberOfMessages], both converted to [double]. *)
Theorem back_pressure_ratio_reported :
  forall env s sched,
    spc (sender (run env s sched)) = SReport ->
    Z.of_nat (count isFailedClaim (thisRound (log (run env s sched))))
      <= INT64_MAX ->
    hd_error (log (stepSend env s (run env s sched)))
      = Some (PrintRatio
                (Div (OfInt64
                        (Z.of_nat
                           (count isFailedClaim
                              (thisRound (log (run env s sched))))))
                     (OfInt64 (numberOfMessages s)))).
Proof.
  intros env s sched Hpc Hfit.
  destruct (counterInv_run env s sched) as [_ Hc].
  destruct Hc as (Hbp & _); [congruence |].
  rewrite Hpc in Hbp. cbn [uncounted] in Hbp. rewrite Z.sub_0_r in Hbp.
  rewrite toInt64_id in Hbp
    by (unfold isInt64, INT64_MIN, INT64_MAX in *; lia).
  unfold stepSend. rewrite Hpc. cbn. now rewrite Hbp.
Qed.

Lemma back_pressure_ratio_reported_witness :
  spc (sender (run Sample.environment (Sample.messages 2) Sample.twoMessages))
    = SReport /\
  Z.of_nat
    (count isFailedClaim
       (thisRound
          (log (run Sample.environment (Sample.messages 2)
                  Sample.twoMessages))))
    <= INT64_MAX /\
  hd_error
    (log (stepSend Sample.environment (Sample.messages 2)
            (run Sample.environment (Sample.messages 2) Sample.twoMessages)))
    = Some (PrintRatio (Div (OfInt64 2) (OfInt64 2))).
Proof.
  assert (Hpc : spc (sender (run Sample.environment (Sample.messages 2)
                               Sample.twoMessages)) = SReport)
    by (vm_compute; reflexivity).
  assert (Hfit : Z.of_nat
                   (count isFailedClaim
                      (thisRound
                         (log (run Sample.environment (Sample.messages 2)
                                 Sample.twoMessages))))
                 <= INT64_MAX)
    by (vm_compute; discriminate).
  split; [exact Hpc |]. split; [exact Hfit |].
  exact (back_pressure_ratio_reported _ _ _ Hpc Hfit).
Defined.

(** C4: when the command line is accepted, the client connects and
    [messageLength] exceeds the publication's [maxPayloadLength], [main]
    prints the error to [std::cerr] as its last event and returns -1,
    whatever the schedule: no thread is started, and nothing was claimed or
    committed. *)
Theorem oversized_message_rejected :
  forall (api : CommandOptionParserApi) cfg env argv out s sched,
    parseCmdLine cfg registeredParser argv = (out, Returns s) ->
    connect env = Returns tt ->
    messageLength s > maxPayloadLength env ->
    main cfg env argv sched
      = (setupEvents env s ++ [tryClaimLimitError env s], Some (-1)) /\
    -1 <> 0 /\
    count isClaimOrCommit (setupEvents env s ++ [tryClaimLimitError env s])
      = O.
Proof.
  intros api cfg env argv out s sched Hparse Hconn Hlen.
  split; [| split; [discriminate |]].
  - unfold main, mainPrologue.
    rewrite (mainTry_connected cfg env argv out s Hparse Hconn).
    apply Z.gt_lt, Z.gtb_lt in Hlen. rewrite Hlen. reflexivity.
  - rewrite count_app, setupEvents_no_claim. reflexivity.
Qed.

Lemma oversized_message_rejected_witness :
  Sample.parsed ["ModifiedThroughput"; "-L"; "2000"]
    = ([], Returns (set_messageLength 2000
                      (defaultSettings Sample.configuration))) /\
  connect Sample.environment = Returns tt /\
  2000 > maxPayloadLength Sample.environment /\
  snd (main (api := parserModel) Sample.configuration Sample.environment
         ["ModifiedThroughput"; "-L"; "2000"] Sample.twoMessages)
    = Some (-1).
Proof.
  assert (Hp : Sample.parsed ["ModifiedThroughput"; "-L"; "2000"]
               = ([], Returns (set_messageLength 2000
                                 (defaultSettings Sample.configuration))))
    by (vm_compute; reflexivity).
  assert (Hc : connect Sample.environment = Returns tt) by reflexivity.
  assert (Hl : 2000 > maxPayloadLength Sample.environment) by reflexivity.
  split; [exact Hp |]. split; [exact Hc |]. split; [exact Hl |].
  destruct (oversized_message_rejected parserModel _ Sample.environment
              _ _ _ Sample.twoMessages Hp Hc Hl) as [Hmain _].
  rewrite Hmain. reflexivity.
Defined.

(** C5: when [parseCmdLine] throws a [CommandOptionException], all that
    [main] does, whatever the schedule, is print "ERROR: " with the message
    of the exception and then the usage text, both to [std::cerr], and
    return -1. *)
Theorem invalid_options_reported :
  forall (api : CommandOptionParserApi) cfg env argv out what sched,
    parseCmdLine cfg registeredParser argv
      = (out, Throws (CommandOptionException what)) ->
    main cfg env argv sched
      = ([ Print Cerr [Str "ERROR: "; Str what; Endl; Endl];
           DisplayOptionsHelp Cerr (optionsHelp registeredParser) ],
         Some (-1)) /\
    -1 <> 0.
Proof.
  intros api cfg env argv out what sched H. split; [| discriminate].
  unfold main.
  now rewrite (mainPrologue_invalid_option cfg env argv out what H).
Qed.

Lemma invalid_options_reported_witness :
  Sample.parsed ["ModifiedThroughput"; "-x"]
    = ([], Throws (CommandOptionException "-x is not a valid command option"))
  /\
  main (api := parserModel) Sample.configuration Sample.environment
    ["ModifiedThroughput"; "-x"] Sample.twoMessages
    = ([ Print Cerr [Str "ERROR: "; Str "-x is not a valid command option";
                     Endl; Endl];
         DisplayOptionsHelp Cerr
           (optionsHelp (CommandOptionParserApi := parserModel)
              registeredParser) ],
       Some (-1)).
Proof.
  assert (Hp : Sample.parsed ["ModifiedThroughput"; "-x"]
               = ([], Throws (CommandOptionException
                                "-x is not a valid command option")))
    by (vm_compute; reflexivity).
  split; [exact Hp |].
  exact (proj1 (invalid_options_reported parserModel _ Sample.environment
                  _ _ _ Sample.twoMessages Hp)).
Defined.

(** C6: the constants of [Configuration.h] being in the validated ranges,
    the settings returned for any accepted command line, by any parser that
    validates ranges, have [pStreamId] and [sStreamId] in [1, INT32_MAX],
    [numberOfMessages] in [0, INT64_MAX], [messageLength] in
    [8, INT32_MAX], [lingerTimeoutMs] in [0, 3600000],
    [fragmentCountLimit] in [1, INT32_MAX] and [subscriptionDelay] in
    [0, INT32_MAX]. *)
Theorem parsed_settings_in_range :
  forall (api : CommandOptionParserApi) cfg cp argv out s,
    validDefaults cfg ->
    parseCmdLine cfg cp argv = (out, Returns s) ->
    1 <= pStreamId s <= INT32_MAX /\
    1 <= sStreamId s <= INT32_MAX /\
    0 <= numberOfMessages s <= INT64_MAX /\
    8 <= messageLength s <= INT32_MAX /\
    0 <= lingerTimeoutMs s <= 3600000 /\
    1 <= fragmentCountLimit s <= INT32_MAX /\
    0 <= subscriptionDelay s <= INT32_MAX.
Proof.
  intros api cfg cp argv out s Hd H.
  exact (parseCmdLine_ranges cfg cp argv out s Hd H).
Qed.

Lemma parsed_settings_in_range_witness :
  validDefaults Sample.configuration /\
  Sample.parsed ["ModifiedThroughput"; "-L"; "2000"]
    = ([], Returns (set_messageLength 2000
                      (defaultSettings Sample.configuration))) /\
  8 <= messageLength (set_messageLength 2000
                        (defaultSettings Sample.configuration))
    <= INT32_MAX.
Proof.
  assert (Hd : validDefaults Sample.configuration)
    by (unfold validDefaults, INT32_MAX, INT64_MAX, sizeofInt64; cbn; lia).
  assert (Hp : Sample.parsed ["ModifiedThroughput"; "-L"; "2000"]
               = ([], Returns (set_messageLength 2000
                                 (defaultSettings Sample.configuration))))
    by (vm_compute; reflexivity).
  split; [exact Hd |]. split; [exact Hp |].
  exact (proj1 (proj2 (proj2 (proj2
           (parsed_settings_in_range parserModel _ _ _ _ _ Hd Hp))))).
Defined.

(** C7: when a call of [tryClaim] returns a negative value, the next two
    steps of the main thread count it in [backPressureCount], idle with the
    offer strategy (a [BusySpinIdleStrategy]) and are back at the call of
    [tryClaim] with the same message index: the loop is neither left nor
    advanced.  And in every round the sequence numbers written so far are
    [0, 1, 2, ...] without a gap, one per commit. *)
Theorem back_pressure_is_retried :
  forall env s,
    0 <= numberOfMessages s <= INT64_MAX ->
    (forall st,
        spc (sender st) = SClaim ->
        tryClaimResult env (claimCalls (sender st)) < 0 ->
        spc (sender (stepSend env s (stepSend env s st))) = SClaim /\
        i (sender (stepSend env s (stepSend env s st))) = i (sender st) /\
        backPressureCount (sender (stepSend env s (stepSend env s st)))
          = toInt64 (backPressureCount (sender st) + 1) /\
        claimCalls (sender (stepSend env s (stepSend env s st)))
          = S (claimCalls (sender st)) /\
        running (stepSend env s (stepSend env s st)) = running st /\
        log (stepSend env s (stepSend env s st))
          = OfferIdle :: BackPressure
              :: TryClaim (toInt32 (messageLength s))
                   (tryClaimResult env (claimCalls (sender st)))
              :: log st) /\
    (forall sched,
        spc (sender (run env s sched)) <> SRound ->
        written (thisRound (log (run env s sched)))
          = countdown (count isCommit (thisRound (log (run env s sched)))) /\
        i (sender (run env s sched))
          = Z.of_nat (count isCommit (thisRound (log (run env s sched))))).
Proof.
  intros env s HN. split.
  - intros st Hpc Hneg. apply Z.ltb_lt in Hneg.
    unfold stepSend at 2 4 6 8 10 12. rewrite Hpc, Hneg.
    cbn -[toInt64 toInt32]. repeat split.
  - intros sched Hpc.
    destruct (indexInv_run env s HN sched Hpc) as (Hi & Hw & _).
    split; assumption.
Qed.

Lemma back_pressure_is_retried_witness :
  0 <= numberOfMessages (Sample.messages 2) <= INT64_MAX /\
  spc (sender (run Sample.environment (Sample.messages 2) [ASend; ASend]))
    = SClaim /\
  tryClaimResult Sample.environment
    (claimCalls
       (sender (run Sample.environment (Sample.messages 2) [ASend; ASend])))
    < 0 /\
  spc (sender (run Sample.environment (Sample.messages 2)
                 [ASend; ASend; ASend; ASend])) = SClaim /\
  i (sender (run Sample.environment (Sample.messages 2)
               [ASend; ASend; ASend; ASend])) = 0.
Proof.
  assert (HN : 0 <= numberOfMessages (Sample.messages 2) <= INT64_MAX)
    by (unfold INT64_MAX; cbn; lia).
  assert (Hpc : spc (sender (run Sample.environment (Sample.messages 2)
                               [ASend; ASend])) = SClaim)
    by reflexivity.
  assert (Hneg : tryClaimResult Sample.environment
                   (claimCalls
                      (sender (run Sample.environment (Sample.messages 2)
                                 [ASend; ASend]))) < 0)
    by reflexivity.
  destruct (back_pressure_is_retried Sample.environment (Sample.messages 2) HN)
    as [Hretry _].
  destruct (Hretry _ Hpc Hneg) as (Hpc' & Hi' & _).
  split; [exact HN |]. split; [exact Hpc |]. split; [exact Hneg |].
  split; [exact Hpc' | exact Hi'].
Defined.

(** C8 fails as it is written ("no new claim or poll is started after the
    flag is cleared"): SIGINT arrives when each loop has just passed its
    test of the flag; the flag is false, and the send loop still calls
    [tryClaim] and the poll loop still calls [poll]. *)
Lemma claim_and_poll_after_sigint :
  running (run Sample.environment (Sample.messages 2)
             [ASend; ASend; APoll; ASigInt]) = false /\
  history (run Sample.environment (Sample.messages 2) Sample.lateSigInt)
    = [ StartPollThread; SetPrintingActive true; RateReporterReset;
        ForTest 0 true; OfferIdleReset; PollTest true; SigInt;
        TryClaim 32 (-2); Poll 10 0; PollIdle 0 ] /\
  ~ quietAfterSigInt Sample.environment (Sample.messages 2) Sample.lateSigInt.
Proof.
  split; [reflexivity |]. split; [reflexivity |].
  unfold quietAfterSigInt. vm_compute. discriminate.
Qed.

(** C8 (amended): the handler sets the flag to false; no step of either
    thread sets it back to true; after SIGINT was delivered neither loop
    passes its test of the flag, so neither begins another iteration, the
    poll loop calls [poll] at most once more and the send loop commits at
    most one more message, those of an iteration that had begun; the retry
    loop of line 289 does not test the flag: there the main thread calls
    [tryClaim] whatever the flag is. *)
Theorem cooperative_shutdown :
  forall env s,
    (forall st, running (sigIntHandler st) = false) /\
    (forall sched st a,
        running (exec env s sched st) = false ->
        running (exec env s (sched ++ [a]) st) = false) /\
    (forall sched,
        count beginsIteration (sinceSigInt (log (run env s sched))) = O /\
        (count isPoll (sinceSigInt (log (run env s sched))) <= 1)%nat /\
        (count isCommit (sinceSigInt (log (run env s sched))) <= 1)%nat) /\
    (forall st,
        spc (sender st) = SClaim ->
        hd_error (log (stepSend env s st))
          = Some (TryClaim (toInt32 (messageLength s))
                    (tryClaimResult env (claimCalls (sender st))))).
Proof.
  intros env s. split; [reflexivity |]. split; [| split].
  - intros sched st a H. rewrite exec_snoc.
    destruct (running (act env s (exec env s sched st) a)) eqn:Hr;
      [| reflexivity].
    apply running_act in Hr. congruence.
  - intros sched.
    destruct (shutdownInv_run env s sched) as (_ & Hb & Hp & _ & Hc & _).
    auto.
  - intros st Hpc. unfold stepSend. rewrite Hpc.
    destruct (tryClaimResult env (claimCalls (sender st)) <? 0); reflexivity.
Qed.

Lemma cooperative_shutdown_witness :
  running (run Sample.environment (Sample.messages 2)
             [ASend; ASend; APoll; ASigInt]) = false /\
  running (run Sample.environment (Sample.messages 2)
             ([ASend; ASend; APoll; ASigInt] ++ [ASend])) = false /\
  spc (sender (run Sample.environment (Sample.messages 2)
                 [ASend; ASend; APoll; ASigInt])) = SClaim /\
  hd_error (log (run Sample.environment (Sample.messages 2)
                   ([ASend; ASend; APoll; ASigInt] ++ [ASend])))
    = Some (TryClaim 32 (-2)) /\
  (count isCommit
     (sinceSigInt
        (log (run Sample.environment (Sample.messages 2) Sample.lateSigInt)))
   <= 1)%nat.
Proof.
  destruct (cooperative_shutdown Sample.environment (Sample.messages 2))
    as (_ & Hmono & Hquiet & Hretry).
  assert (Hoff : running (run Sample.environment (Sample.messages 2)
                        [ASend; ASend; APoll; ASigInt]) = false)
    by reflexivity.
  assert (Hpc : spc (sender (run Sample.environment (Sample.messages 2)
                               [ASend; ASend; APoll; ASigInt])) = SClaim)
    by reflexivity.
  split; [exact Hoff |].
  split; [exact (Hmono _ _ ASend Hoff) |].
  split; [exact Hpc |].
  split; [exact (Hretry _ Hpc) |].
  exact (proj2 (proj2 (Hquiet Sample.lateSigInt))).
Defined.

(** C9: the parser takes [-m 0], and with [numberOfMessages] equal to 0
    the first three steps of the main thread end with the print of the
    ratio of [(double)0] and [(double)0]: nothing tests the divisor. *)
Theorem zero_messages_divides_by_zero :
  Sample.parsed ["ModifiedThroughput"; "-m"; "0"]
    = ([], Returns (Sample.messages 0)) /\
  numberOfMessages (Sample.messages 0) = 0 /\
  forall env s,
    hd_error (log (run env (set_numberOfMessages 0 s) [ASend; ASend; ASend]))
      = Some (PrintRatio (Div (OfInt64 0) (OfInt64 0))).
Proof.
  split; [vm_compute; reflexivity |]. split; [reflexivity |].
  intros env s. reflexivity.
Qed.

(** C10: for settings returned by [parseCmdLine] (the defaults being in
    the validated ranges), every [putInt64] in the log writes its 8 bytes at
    the offset of a claim of [messageLength] bytes, hence inside the
    claimed message. *)
Theorem sequence_number_fits_claim :
  forall (api : CommandOptionParserApi) cfg cp argv out s env sched c index v,
    validDefaults cfg ->
    parseCmdLine cfg cp argv = (out, Returns s) ->
    In (PutInt64 c index v) (log (run env s sched)) ->
    index = offset c /\ length c = messageLength s /\ withinClaim c index.
Proof.
  intros api cfg cp argv out s env sched c index v Hd Hparse Hin.
  pose proof (parseCmdLine_ranges _ _ _ _ _ Hd Hparse) as Hv.
  destruct Hv as (_ & _ & _ & HL & _).
  unfold sizeofInt64, INT32_MAX in HL.
  destruct (counterInv_run env s sched) as [Hwf _].
  rewrite Forall_forall in Hwf. specialize (Hwf _ Hin).
  cbn in Hwf. destruct Hwf as [-> Hlen].
  rewrite toInt32_id in Hlen by (unfold isInt32, INT32_MIN, INT32_MAX; lia).
  unfold withinClaim, sizeofInt64. rewrite Hlen. repeat split; lia.
Qed.

Lemma sequence_number_fits_claim_witness :
  validDefaults Sample.configuration /\
  Sample.parsed ["ModifiedThroughput"; "-m"; "2"]
    = ([], Returns (Sample.messages 2)) /\
  In (PutInt64 (mkClaim 32 32) 32 1)
    (log (run Sample.environment (Sample.messages 2) Sample.twoMessages)) /\
  withinClaim (mkClaim 32 32) 32.
Proof.
  assert (Hd : validDefaults Sample.configuration)
    by (unfold validDefaults, INT32_MAX, INT64_MAX, sizeofInt64; cbn; lia).
  assert (Hp : Sample.parsed ["ModifiedThroughput"; "-m"; "2"]
               = ([], Returns (Sample.messages 2)))
    by (vm_compute; reflexivity).
  assert (Hin : In (PutInt64 (mkClaim 32 32) 32 1)
                  (log (run Sample.environment (Sample.messages 2)
                          Sample.twoMessages)))
    by (vm_compute; tauto).
  split; [exact Hd |]. split; [exact Hp |]. split; [exact Hin |].
  exact (proj2 (proj2 (sequence_number_fits_claim parserModel _ _ _ _ _
                         Sample.environment _ _ _ _ Hd Hp Hin))).
Defined.

(** * Further properties *)

(** ** Invariants of the two loops *)

Section MoreThreadFacts.

Variable env : Environment.
Variable settings : Settings.

Local Abbreviation stepS := (stepSend env settings).
Local Abbreviation actE := (act env settings).
Local Abbreviation execE := (exec env settings).
Local Abbreviation runE := (run env settings).

Lemma lifeInv_act st a : lifeInv st -> lifeInv (actE st a).
Proof.
  unfold lifeInv. intros (Hoff & Hjoin & Hprint). destruct a; cbn [act].
  - unfold stepSend, whenNoReporter.
    destruct (spc (sender st)) eqn:Hpc; split_ifs;
      cbn; rewrite ?Hpc; cbn; repeat split; try congruence; auto.
  - unfold stepPoll.
    destruct (ppc (poller st)) eqn:Hpc; cbn; repeat split; auto;
      try (intros Hret; specialize (Hjoin Hret); congruence).
  - cbn. repeat split; auto. destruct (spc (sender st)); auto.
Qed.

Lemma lifeInv_run sched : lifeInv (runE sched).
Proof.
  unfold run. apply exec_invariant; [apply lifeInv_act |].
  unfold lifeInv. cbn. repeat split; congruence.
Qed.

Lemma accountInv_act st a : accountInv st -> accountInv (actE st a).
Proof.
  unfold accountInv. intros (Hcalls & Hfail & Hok & Hput).
  destruct a; cbn [act].
  - unfold stepSend, whenNoReporter.
    destruct (spc (sender st)) eqn:Hpc; cbn [uncounted uncommitted] in *;
      split_ifs; cbn; rewrite ?Hpc; cbn [uncounted uncommitted];
      try rewrite Heqb; cbn [negb]; repeat split; lia.
  - unfold stepPoll.
    destruct (ppc (poller st)); cbn; repeat split; assumption.
  - cbn. repeat split; assumption.
Qed.

Lemma pollSleep_delay : pollSleep settings = subscriptionDelay settings.
Proof.
  unfold pollSleep.
  destruct (Z.eqb_spec (subscriptionDelay settings) 0) as [E | _];
    congruence.
Qed.

Lemma pollInv_act st a :
  pollInv settings st -> pollInv settings (actE st a).
Proof.
  unfold pollInv. intros (Hwf & Hcalls & Hidle & Hsleep).
  destruct a; cbn [act].
  - unfold stepSend, whenNoReporter.
    destruct (spc (sender st)) eqn:Hpc; split_ifs; cbn;
      (split; [repeat constructor; cbn; auto |]); repeat split;
      congruence.
  - unfold stepPoll.
    destruct (ppc (poller st)) eqn:Hpc; cbn [unslept] in Hsleep; cbn;
      (split; [repeat constructor; cbn; auto using pollSleep_delay |]);
      rewrite ?Hpc; cbn [unslept]; repeat split; try lia.
    destruct (running st); cbn; lia.
  - cbn. split; [repeat constructor; cbn; auto |]. repeat split; assumption.
Qed.

Lemma lingerInv_act st a :
  lingerInv settings st -> lingerInv settings (actE st a).
Proof.
  unfold lingerInv. intros (Hflag & Hwf & Hlinger & Hprompt & Hrounds).
  destruct (existsb isSigInt (log st)) eqn:Hsig.
  - specialize (Hflag eq_refl).
    destruct a; cbn [act].
    + unfold stepSend, whenNoReporter.
      destruct (spc (sender st)) eqn:Hpc;
        rewrite ?Hflag, ?andb_false_r, ?andb_false_l; split_ifs;
        cbn; rewrite ?Hsig, ?Hpc; cbn;
        (split; [auto |]); (split; [repeat constructor; cbn; auto |]);
        repeat split; try congruence; try lia.
    + unfold stepPoll.
      destruct (ppc (poller st)) eqn:Hpc; cbn; rewrite ?Hsig; cbn;
        (split; [auto |]); (split; [repeat constructor; cbn; auto |]);
        repeat split; try congruence; try lia.
    + cbn. rewrite Hsig. cbn. split; [auto |].
      split; [repeat constructor; cbn; auto |]. repeat split; auto.
  - assert (Hafter : sinceSigInt (log st) = []).
    { clear - Hsig. destruct (log st) as [| e l]; [reflexivity |].
      cbn in *. apply orb_false_iff in Hsig as [_ ->]. reflexivity. }
    destruct a; cbn [act].
    + unfold stepSend, whenNoReporter.
      destruct (spc (sender st)) eqn:Hpc; split_ifs;
        cbn; rewrite ?Hsig, ?Hpc; cbn;
        (split; [try discriminate; auto |]);
        (split; [repeat constructor; cbn; auto; lia |]);
        repeat split; try congruence; try lia.
    + unfold stepPoll.
      destruct (ppc (poller st)) eqn:Hpc; cbn; rewrite ?Hsig; cbn;
        (split; [try discriminate; auto |]);
        (split; [repeat constructor; cbn; auto |]);
        repeat split; try congruence; try lia.
    + cbn. rewrite Hsig. cbn. split; [auto |].
      split; [repeat constructor; cbn; auto |]. repeat split; auto.
Qed.

Lemma lingerInv_run sched : lingerInv settings (runE sched).
Proof.
  unfold run. apply exec_invariant; [apply lingerInv_act |].
  unfold lingerInv, initialState. cbn.
  destruct (progress settings); cbn;
    repeat split; try discriminate; repeat constructor.
Qed.

Lemma modeInv_act st a : modeInv settings st -> modeInv settings (actE st a).
Proof.
  unfold modeInv. intros (Hreset & Hreport & Hthread).
  destruct a; cbn [act].
  - unfold stepSend, whenNoReporter, noRateReporterThread.
    destruct (progress settings) eqn:Hprog;
      destruct (spc (sender st)) eqn:Hpc; split_ifs;
      cbn; repeat split; try discriminate; lia.
  - unfold stepPoll.
    destruct (progress settings) eqn:Hprog;
      destruct (ppc (poller st)); cbn; repeat split; auto.
  - cbn. destruct (progress settings); repeat split; auto.
Qed.

(** *** The way out *)

Lemma poller_stepSend st : poller (stepS st) = poller st.
Proof.
  unfold stepSend. destruct (spc (sender st)); split_ifs; reflexivity.
Qed.

Lemma poller_sends m : forall st,
  poller (execE (repeat ASend m) st) = poller st.
Proof.
  induction m as [| m IH]; intros st; [reflexivity |].
  cbn. fold (execE (repeat ASend m) (stepS st)).
  now rewrite IH, poller_stepSend.
Qed.

(** With the flag false the poll thread ends within three of its steps,
    and leaves the main thread and the flag alone. *)
Lemma polls_end st :
  running st = false ->
  ppc (poller (execE (repeat APoll 3) st)) = PDone /\
  sender (execE (repeat APoll 3) st) = sender st /\
  running (execE (repeat APoll 3) st) = false.
Proof.
  destruct st as [r p snd [pc n] l]. cbn [running]. intros ->.
  destruct pc; cbn; auto.
Qed.

(** With the flag false and the poll thread ended, the main thread, if it
    is not in the retry loop, returns within seven steps. *)
Lemma sends_return st :
  running st = false ->
  ppc (poller st) = PDone ->
  retrying (spc (sender st)) = false ->
  spc (sender (execE (repeat ASend 7) st)) = SReturned.
Proof.
  destruct st as [r p [pc i0 bp c k rd] [pp n] l].
  cbn [running poller ppc sender spc]. intros -> -> Hpc.
  destruct pc; try discriminate;
    repeat (cbn -[toInt64 toInt32]; rewrite ?andb_false_r); reflexivity.
Qed.

Lemma shutdown_completes st :
  running st = false ->
  retrying (spc (sender st)) = false ->
  spc (sender (execE (repeat APoll 3 ++ repeat ASend 7) st)) = SReturned.
Proof.
  intros Hoff Hpc. rewrite exec_app.
  destruct (polls_end st Hoff) as (Hdone & Hsender & Hoff').
  apply sends_return; [assumption | assumption | now rewrite Hsender].
Qed.

Lemma shutdown_completes_eventually st :
  eventuallyClaims env ->
  running st = false ->
  exists m,
    spc (sender (execE (repeat APoll 3 ++ repeat ASend m) st)) = SReturned.
Proof.
  intros Henv Hoff.
  destruct (polls_end st Hoff) as (Hdone & Hsender & Hoff').
  set (st1 := execE (repeat APoll 3) st) in *.
  assert (Hclaim : forall st2,
             spc (sender st2) = SClaim -> running st2 = false ->
             ppc (poller st2) = PDone ->
             exists m, spc (sender (execE (repeat ASend m) st2)) = SReturned).
  { intros st2 Hpc2 Hoff2 Hdone2.
    destruct (Henv (claimCalls (sender st2))) as (k' & Hk & Hok).
    replace k'
      with (claimCalls (sender st2) + (k' - claimCalls (sender st2)))%nat
      in Hok by lia.
    destruct (claim_terminates env settings _ st2 Hpc2 Hok)
      as (m & Hw & _ & Hr).
    exists (m + 7)%nat. rewrite exec_repeat_add.
    apply sends_return.
    - now rewrite Hr.
    - now rewrite poller_sends.
    - now rewrite Hw. }
  destruct (retrying (spc (sender st1))) eqn:Hretry.
  - destruct (spc (sender st1)) eqn:Hpc1; try discriminate.
    + destruct (Hclaim st1 Hpc1 Hoff' Hdone) as (m & Hm).
      exists m. now rewrite exec_app.
    + destruct (Hclaim (stepS st1)) as (m & Hm).
      * unfold stepSend. now rewrite Hpc1.
      * unfold stepSend. now rewrite Hpc1.
      * now rewrite poller_stepSend.
      * exists (1 + m)%nat. now rewrite exec_app, exec_repeat_add.
  - exists 7%nat. rewrite exec_app. now apply sends_return.
Qed.

(** From the report of a round, with the flag true and "no" for an
    answer, four steps of the main thread take it to the joins. *)
Lemma sends_tidy st :
  spc (sender st) = SReport ->
  running st = true ->
  executeAgain env (rounds (sender st)) = false ->
  spc (sender (execE (repeat ASend 4) st)) = SJoin /\
  running (execE (repeat ASend 4) st) = false.
Proof.
  destruct st as [r p [pc i0 bp c k rd] pl l].
  cbn [running sender spc rounds]. intros -> -> Hno.
  cbn. rewrite Hno. cbn. auto.
Qed.

(** *** No way out of the retry loop *)

Lemma retrying_act st a :
  (forall k, tryClaimResult env k < 0) ->
  retrying (spc (sender st)) = true ->
  retrying (spc (sender (actE st a))) = true.
Proof.
  intros Hneg Hpc. destruct a; cbn [act].
  - unfold stepSend. destruct (spc (sender st)); try discriminate.
    + specialize (Hneg (claimCalls (sender st))). apply Z.ltb_lt in Hneg.
      now rewrite Hneg.
    + reflexivity.
  - unfold stepPoll. destruct (ppc (poller st)); exact Hpc.
  - exact Hpc.
Qed.

(** *** SIGINT before the loops *)

Lemma idleInv_act st a : idleInv st -> idleInv (actE st a).
Proof.
  unfold idleInv. intros (Hoff & Hpc & Hpp & Hc & Hm & Hp).
  destruct a; cbn [act].
  - unfold stepSend, whenNoReporter.
    destruct (spc (sender st)) eqn:E; try discriminate;
      rewrite ?Hoff, ?andb_false_r; split_ifs; cbn; rewrite ?E;
      repeat split; auto; rewrite ?Heqp; auto;
      destruct Hpp; congruence.
  - unfold stepPoll.
    destruct Hpp as [E | E]; rewrite E, ?Hoff; cbn; rewrite ?E;
      repeat split; auto.
  - cbn. repeat split; auto.
Qed.

End MoreThreadFacts.

(** ** More facts about parseCmdLine and main *)

Section MoreMainFacts.

Context {api : CommandOptionParserApi}.
Variable cfg : Configuration.
Variable env : Environment.

(** Line 87 overwrites the default of line 63. *)
Lemma readSettings_progress_default b cp :
  readSettings (withProgressDefault b cfg) cp = readSettings cfg cp.
Proof.
  unfold readSettings, optParam, optParamAsInt, optParamAsLong, optPresent,
    defaultSettings, withProgressDefault.
  cbn -[toInt32 toInt64 INT32_MAX INT64_MAX Z.mul].
  repeat match goal with
         | |- context [getOption ?p ?c] =>
             destruct (getOption p c);
             cbn -[toInt32 toInt64 INT32_MAX INT64_MAX Z.mul]
         | |- context [getParam ?o ?n ?d] =>
             destruct (getParam o n d);
             cbn -[toInt32 toInt64 INT32_MAX INT64_MAX Z.mul]
         | |- context [getParamAsInt ?o ?n ?lo ?hi ?d] =>
             destruct (getParamAsInt o n lo hi d);
             cbn -[toInt32 toInt64 INT32_MAX INT64_MAX Z.mul]
         | |- context [getParamAsLong ?o ?n ?lo ?hi ?d] =>
             destruct (getParamAsLong o n lo hi d);
             cbn -[toInt32 toInt64 INT32_MAX INT64_MAX Z.mul]
         end;
    reflexivity.
Qed.

Lemma mainPrologue_help argv cp' h :
  parse registeredParser argv = Returns cp' ->
  getOption cp' optHelp = Returns h ->
  isPresent h = true ->
  mainPrologue cfg env argv
    = ([DisplayOptionsHelp Cout (optionsHelp cp')], Exits 0).
Proof.
  intros Hp Hh Hpresent.
  unfold mainPrologue, mainTry, parseCmdLine, optPresent.
  rewrite Hp. cbn. rewrite Hh. cbn. rewrite Hpresent. reflexivity.
Qed.

Lemma mainPrologue_parse_throws argv out e :
  parseCmdLine cfg registeredParser argv = (out, Throws e) ->
  mainPrologue cfg env argv = (handler e, Exits (-1)).
Proof.
  intros H. pose proof (parseCmdLine_Throws _ _ _ _ _ H) as ->.
  unfold mainPrologue, mainTry. rewrite H. reflexivity.
Qed.

Lemma mainPrologue_connect_throws argv out s e :
  parseCmdLine cfg registeredParser argv = (out, Returns s) ->
  connect env = Throws e ->
  mainPrologue cfg env argv
    = (bannerEvents s ++ AeronConnect :: handler e, Exits (-1)).
Proof.
  intros H Hc. pose proof (parseCmdLine_Returns _ _ _ _ _ H) as [-> _].
  unfold mainPrologue, mainTry, bannerEvents. rewrite H, Hc.
  cbn [bind ret emit call exit spin app].
  destruct (String.eqb (dirPrefix s) ""); reflexivity.
Qed.

Lemma mainPrologue_started argv out s :
  parseCmdLine cfg registeredParser argv = (out, Returns s) ->
  connect env = Returns tt ->
  messageLength s <= maxPayloadLength env ->
  mainPrologue cfg env argv = (setupEvents env s, Returns s).
Proof.
  intros H Hc Hlen. unfold mainPrologue.
  rewrite (mainTry_connected cfg env argv out s H Hc).
  rewrite Z.gtb_ltb.
  replace (maxPayloadLength env <? messageLength s) with false
    by (symmetry; apply Z.ltb_ge; lia).
  reflexivity.
Qed.

End MoreMainFacts.

(** ** More sample runs *)

Module MoreSamples.

(** A help flag after a stream ID that is out of range. *)
Definition helpArgv : list string := ["ModifiedThroughput"; "-s"; "0"; "-h"].

Definition helpState : ParserModel.ParserState :=
  Eval vm_compute in
    match ParserModel.parse (registeredParser (api := parserModel)) helpArgv
    with
    | Returns p => p
    | _ => []
    end.

Definition helpOption : ParserModel.OptionState :=
  ParserModel.mkOptionState
    (mkOption optHelp 0 0 "                Displays help information.")
    true [].

(** A publication that never takes a message (-1 is the library's code
    for a publication nobody is connected to). *)
Definition stuckEnvironment : Environment :=
  {| connect := Returns tt;
     subscriptionSpins := 0;
     publicationSpins := 0;
     maxPayloadLength := 1376;
     tryClaimResult := fun _ => -1;
     claimOffset := fun _ => 32;
     pollFragments := fun _ => 0;
     executeAgain := fun _ => false |}.

(** A client that cannot reach the driver. *)
Definition noDriver : Environment :=
  {| connect := Throws (SourcedException "CnC file not created" "Aeron");
     subscriptionSpins := 0;
     publicationSpins := 0;
     maxPayloadLength := 1376;
     tryClaimResult := fun _ => 4096;
     claimOffset := fun _ => 32;
     pollFragments := fun _ => 0;
     executeAgain := fun _ => false |}.

(** Two messages, "no" to "Execute again?", the poll thread run to its
    end and the join. *)
Definition wholeRun : list Action :=
  repeat ASend 16 ++ repeat APoll 3 ++ [ASend].

End MoreSamples.

(** ** The properties *)



(** X2: when [parseCmdLine] throws an exception that is not a
    [CommandOptionException], all [main] does is print one line that
    starts with "FAILED: " on [std::cerr], without the usage text, and
    return -1. *)
Theorem other_parse_failures_reported :
  forall (api : CommandOptionParserApi) cfg env argv out e sched,
    parseCmdLine cfg registeredParser argv = (out, Throws e) ->
    (forall what, e <> CommandOptionException what) ->
    main cfg env argv sched
      = ([Print Cerr
            (Str "FAILED: "
               :: match e with
                  | SourcedException what where_ =>
                      [Str what; Str " : "; Str where_; Endl]
                  | StdException what => [Str what; Str " : "; Endl]
                  | CommandOptionException what => []
                  end)],
         Some (-1)) /\
    count isUsage (fst (main cfg env argv sched)) = O.
Proof.
  intros api cfg env argv out e sched H Hother.
  unfold main. rewrite (mainPrologue_parse_throws cfg env argv out e H).
  destruct e as [what | what where_ | what];
    [now destruct (Hother what) | split; reflexivity ..].
Qed.

Lemma other_parse_failures_reported_witness :
  Sample.parsed ["ModifiedThroughput"; "-m"; "many"]
    = ([], Throws (SourcedException "failed to parse: many" "parse")) /\
  main (api := parserModel) Sample.configuration Sample.environment
    ["ModifiedThroughput"; "-m"; "many"] Sample.twoMessages
    = ([Print Cerr [Str "FAILED: "; Str "failed to parse: many"; Str " : ";
                    Str "parse"; Endl]],
       Some (-1)).
Proof.
  assert (Hp : Sample.parsed ["ModifiedThroughput"; "-m"; "many"]
               = ([], Throws (SourcedException "failed to parse: many"
                                "parse")))
    by (vm_compute; reflexivity).
  split; [exact Hp |].
  refine (proj1 (other_parse_failures_reported parserModel _
                   Sample.environment _ _ _ Sample.twoMessages Hp _)).
  intros what. discriminate.
Defined.

(** X3: when the command line is accepted and the client cannot be
    constructed, [main] has printed its two banner lines and set the
    driver directory if one was given; it then reports the exception on
    [std::cerr] and returns -1: the signal handler is not installed,
    nothing is subscribed or published and no thread is started. *)
Theorem connect_failure_reported :
  forall (api : CommandOptionParserApi) cfg env argv out s e sched,
    parseCmdLine cfg registeredParser argv = (out, Returns s) ->
    connect env = Throws e ->
    main cfg env argv sched
      = (bannerEvents s ++ AeronConnect :: handler e, Some (-1)).
Proof.
  intros api cfg env argv out s e sched H Hc. unfold main.
  now rewrite (mainPrologue_connect_throws cfg env argv out s e H Hc).
Qed.

Lemma connect_failure_reported_witness :
  Sample.parsed ["ModifiedThroughput"; "-m"; "2"]
    = ([], Returns (Sample.messages 2)) /\
  connect MoreSamples.noDriver
    = Throws (SourcedException "CnC file not created" "Aeron") /\
  main (api := parserModel) Sample.configuration MoreSamples.noDriver
    ["ModifiedThroughput"; "-m"; "2"] Sample.twoMessages
    = (bannerEvents (Sample.messages 2)
         ++ [ AeronConnect;
              Print Cerr [Str "FAILED: "; Str "CnC file not created";
                          Str " : "; Str "Aeron"; Endl] ],
       Some (-1)).
Proof.
  assert (Hp : Sample.parsed ["ModifiedThroughput"; "-m"; "2"]
               = ([], Returns (Sample.messages 2)))
    by (vm_compute; reflexivity).
  assert (Hc : connect MoreSamples.noDriver
               = Throws (SourcedException "CnC file not created" "Aeron"))
    by reflexivity.
  split; [exact Hp |]. split; [exact Hc |].
  exact (connect_failure_reported parserModel _ MoreSamples.noDriver _ _ _ _
           Sample.twoMessages Hp Hc).
Defined.

(** X4: the constant [DEFAULT_PUBLICATION_RATE_PROGRESS] has no effect:
    line 87 sets [progress] to whether the flag [-P] is present, so
    [parseCmdLine] and [main] do the same whatever the constant is. *)
Theorem progress_default_is_ignored :
  forall (api : CommandOptionParserApi) cfg b env cp argv sched,
    parseCmdLine (withProgressDefault b cfg) cp argv
      = parseCmdLine cfg cp argv /\
    main (withProgressDefault b cfg) env argv sched
      = main cfg env argv sched.
Proof.
  intros api cfg b env cp argv sched.
  assert (H : forall cp0,
             parseCmdLine (withProgressDefault b cfg) cp0 argv
             = parseCmdLine cfg cp0 argv).
  { intros cp0. unfold parseCmdLine.
    destruct (parse cp0 argv) as [cp' | e | n]; [| reflexivity ..].
    cbn [call bind]. unfold bind at 1 3.
    destruct (optPresent cp' optHelp) as [o [[|] | e | n]];
      [reflexivity | | reflexivity ..].
    now rewrite readSettings_progress_default. }
  split; [apply H |].
  unfold main, mainPrologue, mainTry. now rewrite H.
Qed.


(** X6: [main] returns only when the flag is false and the poll thread
    has ended, outside a round; after that neither thread does anything
    more. *)
Theorem main_returns_after_join :
  forall env s sched,
    spc (sender (run env s sched)) = SReturned ->
    running (run env s sched) = false /\
    ppc (poller (run env s sched)) = PDone /\
    printingActive (run env s sched) = false /\
    stepSend env s (run env s sched) = run env s sched /\
    stepPoll env s (run env s sched) = run env s sched.
Proof.
  intros env s sched Hpc.
  destruct (lifeInv_run env s sched) as (Hoff & Hjoin & Hprint).
  rewrite Hpc in Hoff, Hprint. specialize (Hjoin Hpc).
  repeat split; try assumption.
  - unfold stepSend. now rewrite Hpc.
  - unfold stepPoll. now rewrite Hjoin.
Qed.

Lemma main_returns_after_join_witness :
  spc (sender (run Sample.environment (Sample.messages 2)
                 MoreSamples.wholeRun)) = SReturned /\
  running (run Sample.environment (Sample.messages 2) MoreSamples.wholeRun)
    = false /\
  ppc (poller (run Sample.environment (Sample.messages 2)
                 MoreSamples.wholeRun)) = PDone.
Proof.
  assert (Hpc : spc (sender (run Sample.environment (Sample.messages 2)
                               MoreSamples.wholeRun)) = SReturned)
    by (vm_compute; reflexivity).
  destruct (main_returns_after_join _ _ _ Hpc) as (Hoff & Hdone & _).
  split; [exact Hpc |]. split; [exact Hoff | exact Hdone].
Defined.

(** X7: in every run the calls of [tryClaim] in the log are all the calls
    made; each failed one is counted as back pressure and each successful
    one is written to once and committed once, but for the call the main
    thread is dealing with: no claim is left uncommitted, SIGINT or not. *)
Theorem claims_are_accounted_for :
  forall env s sched,
    count isTryClaim (log (run env s sched))
      = claimCalls (sender (run env s sched)) /\
    count isFailedClaim (log (run env s sched))
      = (count isBackPressure (log (run env s sched))
         + uncounted (spc (sender (run env s sched))))%nat /\
    count isSuccessfulClaim (log (run env s sched))
      = (count isCommit (log (run env s sched))
         + uncommitted (spc (sender (run env s sched))))%nat /\
    count isPutInt64 (log (run env s sched))
      = count isCommit (log (run env s sched)).
Proof.
  intros env s sched. change (accountInv (run env s sched)).
  unfold run. apply exec_invariant; [apply accountInv_act |].
  unfold accountInv, initialState. cbn.
  destruct (progress s); cbn; repeat split.
Qed.




(** X10: if the publication never takes a message and there is a message
    to send, then from its second step on the main thread is in the retry
    loop of lines 289-293 whatever happens, SIGINT included: it never
    reaches the end of the loop, and [main] never returns. *)
Theorem back_pressure_blocks_shutdown :
  forall (api : CommandOptionParserApi) cfg env argv out s sched,
    parseCmdLine cfg registeredParser argv = (out, Returns s) ->
    connect env = Returns tt ->
    messageLength s <= maxPayloadLength env ->
    0 < numberOfMessages s ->
    (forall k, tryClaimResult env k < 0) ->
    retrying (spc (sender (run env s ([ASend; ASend] ++ sched)))) = true /\
    snd (main cfg env argv ([ASend; ASend] ++ sched)) = None.
Proof.
  intros api cfg env argv out s sched Hparse Hconn Hlen HN Hneg.
  assert (Hretry : retrying
                     (spc (sender (run env s ([ASend; ASend] ++ sched))))
                   = true).
  { unfold run. rewrite exec_app.
    apply (exec_invariant env s
             (fun st => retrying (spc (sender st)) = true)).
    - intros st a. now apply retrying_act.
    - cbn. apply Z.ltb_lt in HN. rewrite HN. reflexivity. }
  split; [exact Hretry |].
  unfold main.
  rewrite (mainPrologue_started cfg env argv out s Hparse Hconn Hlen).
  cbn [snd].
  destruct (spc (sender (run env s ([ASend; ASend] ++ sched))));
    try reflexivity; discriminate.
Qed.

Lemma back_pressure_blocks_shutdown_witness :
  Sample.parsed ["ModifiedThroughput"; "-m"; "2"]
    = ([], Returns (Sample.messages 2)) /\
  connect MoreSamples.stuckEnvironment = Returns tt /\
  messageLength (Sample.messages 2)
    <= maxPayloadLength MoreSamples.stuckEnvironment /\
  0 < numberOfMessages (Sample.messages 2) /\
  snd (main (api := parserModel) Sample.configuration
         MoreSamples.stuckEnvironment ["ModifiedThroughput"; "-m"; "2"]
         ([ASend; ASend]
            ++ ASigInt :: repeat APoll 3 ++ repeat ASend 20)) = None.
Proof.
  assert (Hp : Sample.parsed ["ModifiedThroughput"; "-m"; "2"]
               = ([], Returns (Sample.messages 2)))
    by (vm_compute; reflexivity).
  assert (Hc : connect MoreSamples.stuckEnvironment = Returns tt)
    by reflexivity.
  assert (Hl : messageLength (Sample.messages 2)
               <= maxPayloadLength MoreSamples.stuckEnvironment)
    by (vm_compute; discriminate).
  assert (HN : 0 < numberOfMessages (Sample.messages 2)) by reflexivity.
  assert (Hneg : forall k,
             tryClaimResult MoreSamples.stuckEnvironment k < 0)
    by (intros k; reflexivity).
  split; [exact Hp |]. split; [exact Hc |]. split; [exact Hl |].
  split; [exact HN |].
  exact (proj2 (back_pressure_blocks_shutdown parserModel _
                  MoreSamples.stuckEnvironment _ _ _ _ Hp Hc Hl HN Hneg)).
Defined.


(** X12: the rate is reported in one of two ways.  Without the flag [-P]
    no reporter thread is started or joined, and the reporter is reset at
    the start of every round and asked to report with every ratio; with
    it, the reporter is never reset nor asked by the main thread. *)
Theorem rate_reporting_mode :
  forall env s sched,
    count isReporterReset (log (run env s sched))
      = (if progress s then O
         else count isRoundStart (log (run env s sched))) /\
    count isReporterReport (log (run env s sched))
      = (if progress s then O
         else count isPrintRatio (log (run env s sched))) /\
    (if progress s then True
     else count isReporterThread (log (run env s sched)) = O).
Proof.
  intros env s sched. change (modeInv s (run env s sched)).
  unfold run. apply exec_invariant; [apply modeInv_act |].
  unfold modeInv, initialState.
  destruct (progress s); cbn; repeat split.
Qed.

(** X13: a normal run returns 0: when the command line is accepted (the
    defaults being in the validated ranges), the client connects, the
    message fits, the publication does not push back for ever and the
    answer to "Execute again?" is no, some schedule without SIGINT takes
    [main] to [return 0]. *)
Theorem normal_run_returns_zero :
  forall (api : CommandOptionParserApi) cfg env argv out s,
    validDefaults cfg ->
    parseCmdLine cfg registeredParser argv = (out, Returns s) ->
    connect env = Returns tt ->
    messageLength s <= maxPayloadLength env ->
    eventuallyClaims env ->
    (forall k, executeAgain env k = false) ->
    exists sched,
      ~ In ASigInt sched /\ snd (main cfg env argv sched) = Some 0.
Proof.
  intros api cfg env argv out s Hd Hparse Hconn Hlen Henv Hno.
  pose proof (parseCmdLine_ranges _ _ _ _ _ Hd Hparse) as Hv.
  destruct Hv as (_ & _ & HN & _).
  destruct (run_terminates env s HN Henv) as (m & Hpc & Hrun).
  destruct (sends_tidy env s _ Hpc Hrun (Hno _)) as (Hjoin & Hoff).
  assert (Hret : spc (sender (exec env s (repeat APoll 3 ++ repeat ASend 7)
                            (exec env s (repeat ASend 4)
                               (run env s (repeat ASend m))))) = SReturned).
  { apply shutdown_completes; [exact Hoff | now rewrite Hjoin]. }
  exists (repeat ASend m ++ repeat ASend 4
            ++ repeat APoll 3 ++ repeat ASend 7).
  split.
  - intros Hin.
    repeat (apply in_app_or in Hin; destruct Hin as [Hin | Hin]);
      apply repeat_spec in Hin; discriminate.
  - unfold main.
    rewrite (mainPrologue_started cfg env argv out s Hparse Hconn Hlen).
    cbn [snd]. unfold run in *. rewrite !exec_app.
    rewrite exec_app in Hret. now rewrite Hret.
Qed.

Lemma normal_run_returns_zero_witness :
  validDefaults Sample.configuration /\
  Sample.parsed ["ModifiedThroughput"; "-m"; "2"]
    = ([], Returns (Sample.messages 2)) /\
  connect Sample.environment = Returns tt /\
  messageLength (Sample.messages 2) <= maxPayloadLength Sample.environment /\
  snd (main (api := parserModel) Sample.configuration Sample.environment
         ["ModifiedThroughput"; "-m"; "2"] MoreSamples.wholeRun) = Some 0 /\
  exists sched,
    ~ In ASigInt sched /\
    snd (main (api := parserModel) Sample.configuration Sample.environment
           ["ModifiedThroughput"; "-m"; "2"] sched) = Some 0.
Proof.
  assert (Hd : validDefaults Sample.configuration)
    by (unfold validDefaults, INT32_MAX, INT64_MAX, sizeofInt64; cbn; lia).
  assert (Hp : Sample.parsed ["ModifiedThroughput"; "-m"; "2"]
               = ([], Returns (Sample.messages 2)))
    by (vm_compute; reflexivity).
  assert (Hc : connect Sample.environment = Returns tt) by reflexivity.
  assert (Hl : messageLength (Sample.messages 2)
               <= maxPayloadLength Sample.environment)
    by (vm_compute; discriminate).
  assert (Hno : forall k, executeAgain Sample.environment k = false)
    by (intros k; reflexivity).
  split; [exact Hd |]. split; [exact Hp |]. split; [exact Hc |].
  split; [exact Hl |]. split; [vm_compute; reflexivity |].
  exact (normal_run_returns_zero parserModel _ Sample.environment _ _ _
           Hd Hp Hc Hl eventuallyClaims_sample Hno).
Defined.

(** X14: if SIGINT is delivered before the threads have taken a step,
    then, whatever the schedule after it, no message is claimed or
    committed and nothing is polled. *)
Theorem early_sigint_sends_nothing :
  forall env s sched,
    count isTryClaim (log (run env s (ASigInt :: sched))) = O /\
    count isCommit (log (run env s (ASigInt :: sched))) = O /\
    count isPoll (log (run env s (ASigInt :: sched))) = O.
Proof.
  intros env s sched.
  assert (H : idleInv (run env s (ASigInt :: sched))).
  { unfold run. cbn [exec fold_left act].
    apply (exec_invariant env s idleInv); [apply idleInv_act |].
    unfold idleInv, initialState. cbn.
    destruct (progress s); cbn; repeat split; auto. }
  destruct H as (_ & _ & _ & Hc & Hm & Hp). auto.
Qed.
